(** * SSL certificate expiry checker: a shallow embedding of [checker.py]

    The development follows the source file top to bottom: Python values and
    dictionaries, [datetime] subtraction, the effects of one endpoint check
    (printing, the webhook call, exceptions), [check_site], and finally the
    [main] function with its thread pool and its exit code. *)

From Stdlib Require Import ZArith Lia.
From stdpp Require Import gmap strings list fin_maps pretty relations.

Local Open Scope Z_scope.

(** ** Python values of the parsed configuration *)

(** The scalars a YAML entry supplies for [host], [port] and [name]. *)
Inductive pyval : Type :=
  | PNone
  | PInt (n : Z)
  | PStr (s : string).

(** [str(v)], as an f-string renders a value. *)
Definition py_str (v : pyval) : string :=
  match v with
  | PNone => "None"
  | PInt n => pretty n
  | PStr s => s
  end.

(** [d.get(key, default)]. *)
Definition dict_get {V : Type} (d : gmap string V) (key : string) (dflt : V) : V :=
  default dflt (d !! key).

(** Truth value of a [str | None]: [None] and the empty string are false. *)
Definition truthy (s : option string) : bool :=
  match s with
  | None => false
  | Some u => negb (String.eqb u "")
  end.

(** ** [datetime] arithmetic

    An aware UTC [datetime] is its number of microseconds since the epoch;
    a [timedelta] is kept normalised the way Python keeps it: the seconds
    and microseconds fields are never negative, the sign lives in [days]. *)
Module datetime.

Definition US_PER_SECOND : Z := 1000000.
Definition US_PER_DAY : Z := 86400 * US_PER_SECOND.

Record timedelta : Type := mk_timedelta {
  days : Z;
  seconds : Z;
  microseconds : Z
}.

Definition timedelta_of_us (us : Z) : timedelta :=
  {| days := us / US_PER_DAY;
     seconds := (us mod US_PER_DAY) / US_PER_SECOND;
     microseconds := us mod US_PER_SECOND |}.

Definition total_us (d : timedelta) : Z :=
  days d * US_PER_DAY + seconds d * US_PER_SECOND + microseconds d.

(** [a - b] on two aware datetimes. *)
Definition sub (a b : Z) : timedelta := timedelta_of_us (a - b).

End datetime.

(** ** Effects of one check

    What a check does to the outside: a line on standard output, a line on
    the error stream, and one call of [send_slack], the POST of a JSON
    payload to the webhook (recorded when it is attempted, whether or not
    the request goes through). *)
Inductive event : Type :=
  | Stdout (line : string)
  | Stderr (line : string)
  | HttpPost (url : string) (payload : gmap string string).

(** What the outside answers during one call of [check_site]: the outcome
    of the TLS retrieval (the text of the exception, or the certificate's
    [not_valid_after_utc]), the clock, and the outcome of the webhook call
    ([Some e] when [urlopen] raises [e]; one call of [check_site] reaches
    [send_slack] at most once). *)
Record Oracle : Type := mk_oracle {
  cert : string + Z;
  clock : Z;
  slack : option string
}.

(** Computations that print and may raise an [Exception]: the output so
    far, then the text of the exception or the value. *)
Definition M (A : Type) : Type := (list event * (string + A))%type.

Definition ret {A : Type} (a : A) : M A := ([], inr a).

Definition raise {A : Type} (e : string) : M A := ([], inl e).

Definition bind {A B : Type} (m : M A) (k : A -> M B) : M B :=
  match m with
  | (out, inl e) => (out, inl e)
  | (out, inr a) => let '(out', r) := k a in (out ++ out', r)
  end.

(** [try: m except Exception as e: h e]. *)
Definition try_except {A : Type} (m : M A) (h : string -> M A) : M A :=
  match m with
  | (out, inl e) => let '(out', r) := h e in (out ++ out', r)
  | (out, inr a) => (out, inr a)
  end.

Definition emit (ev : event) : M unit := ([ev], inr tt).

Declare Scope py_scope.
Delimit Scope py_scope with py.
Notation "x <- m ;; k" := (bind m (fun x => k))
  (at level 100, m at next level, right associativity) : py_scope.
Notation "m ;; k" := (bind m (fun _ => k))
  (at level 100, right associativity) : py_scope.

Definition output {A : Type} (m : M A) : list event := fst m.
Definition outcome {A : Type} (m : M A) : string + A := snd m.

(** The POST requests among the events: the notification attempts. *)
Definition is_post (ev : event) : bool :=
  match ev with HttpPost _ _ => true | _ => false end.

Definition notifications (evs : list event) : list event := List.filter is_post evs.

(** ** The functions of [checker.py] *)

Definition MAX_WORKERS : nat := 10.

Definition CheckResult : Type := (pyval * string * Z)%type.

Definition get_certificate_notAfter (w : Oracle) (hostname port : pyval) : M Z :=
  match cert w with
  | inl e => raise e
  | inr not_after => ret not_after
  end.

Definition days_until (w : Oracle) (dt : Z) : Z :=
  let now := clock w in
  let delta := datetime.sub dt now in
  datetime.days delta.

Definition send_slack (w : Oracle) (webhook_url : string)
    (payload : gmap string string) : M unit :=
  (emit (HttpPost webhook_url payload) ;;
   match slack w with
   | Some e => raise e
   | None => ret tt
   end)%py.

Section checker.

(** [datetime.isoformat] belongs to the Python library; the checker only
    splices its text into the status line. *)
Variable isoformat : Z -> string.

(** [thresholds.get('error_days', 7)] and [thresholds.get('warning_days', 30)]. *)
Definition error_days (thresholds : gmap string Z) : Z :=
  dict_get thresholds "error_days" 7.

Definition warning_days (thresholds : gmap string Z) : Z :=
  dict_get thresholds "warning_days" 30.

(** The [if]/[elif] chain of [check_site] that sets [status]. *)
Definition classify (thresholds : gmap string Z) (days : Z) : string :=
  if days <? 0 then "EXPIRED"
  else if days <=? error_days thresholds then "ERROR"
  else if days <=? warning_days thresholds then "WARNING"
  else "OK".

Definition status_line (label host port : pyval) (exp days : Z) (status : string) : string :=
  py_str label +:+ " (" +:+ py_str host +:+ ":" +:+ py_str port
    +:+ ") -> Expires: " +:+ isoformat exp +:+ " UTC (" +:+ pretty days
    +:+ " days) [" +:+ status +:+ "]".

Definition error_line (label host port : pyval) (e : string) : string :=
  py_str label +:+ " (" +:+ py_str host +:+ ":" +:+ py_str port
    +:+ ") -> ERROR retrieving certificate: " +:+ e.

Definition check_site (w : Oracle) (entry : gmap string pyval)
    (thresholds : gmap string Z) (slack_webhook : option string) : M CheckResult :=
  let host := dict_get entry "host" PNone in
  let port := dict_get entry "port" (PInt 443) in
  let label := dict_get entry "name" host in
  try_except
    (exp <- get_certificate_notAfter w host port ;;
     let days := days_until w exp in
     let status := classify thresholds days in
     let message := status_line label host port exp days status in
     emit (Stdout message) ;;
     (if truthy slack_webhook
         && bool_decide (status ∈ ["WARNING"; "ERROR"; "EXPIRED"])
      then
        let payload : gmap string string := {[ "text" := message ]} in
        try_except
          (send_slack w (default "" slack_webhook) payload)
          (fun e => emit (Stderr ("Failed to send Slack alert: " +:+ e)))
      else ret tt) ;;
     ret (label, status, days))%py
    (fun e =>
       let err_msg := error_line label host port e in
       (emit (Stderr err_msg) ;;
        (if truthy slack_webhook
         then
           try_except
             (send_slack w (default "" slack_webhook) {[ "text" := err_msg ]})
             (fun _ => ret tt)
         else ret tt) ;;
        ret (label, "ERROR", -9999))%py).

End checker.

(** ** [main]

    The exit code computed from the collected results. *)
Definition exit_code (results : list CheckResult) : Z :=
  let codes : gset string := list_to_set ((fun r : CheckResult => r.1.2) <$> results) in
  if bool_decide ("ERROR" ∈ codes) || bool_decide ("EXPIRED" ∈ codes) then 2
  else if bool_decide ("WARNING" ∈ codes) then 1
  else 0.

(** The webhook [main] hands to every check: the environment's
    [SLACK_WEBHOOK_URL], dropped under [--no-slack]. *)
Definition main_webhook (env_url : option string) (no_slack : bool) : option string :=
  if no_slack then None else env_url.

(** The thread pool of [main]. A task is the index of its site in the
    submission order; it waits in the queue, is run by one of at most
    [max_workers] threads, becomes a finished future, and is at last
    yielded by [as_completed] to the main thread, which appends its result. *)
Record pool_state : Type := mk_pool {
  queued : list nat;
  running : list nat;
  finished : list nat;
  yielded : list nat;
  results : list CheckResult;
  raised : option string
}.

Section pool.

Variable isoformat : Z -> string.
Variable max_workers : nat.
Variable thresholds : gmap string Z.
Variable slack_webhook : option string.
Variable sites : list (gmap string pyval).
(** What the outside answers to the task of each site. *)
Variable world : nat -> Oracle.

(** [future.result()] of task [i]: the value [check_site] returned, or
    the exception it let through. *)
Definition future_result (i : nat) : option (string + CheckResult) :=
  (fun site => outcome (check_site isoformat (world i) site thresholds slack_webhook))
    <$> sites !! i.

(** [executor.submit] of every site, before any worker has started. *)
Definition submitted : pool_state :=
  mk_pool (seq 0 (length sites)) [] [] [] [] None.

Inductive pool_step : pool_state -> pool_state -> Prop :=
  | step_start i q run fin yld res :
      (length run < max_workers)%nat ->
      pool_step (mk_pool (i :: q) run fin yld res None)
                (mk_pool q (run ++ [i]) fin yld res None)
  | step_finish i q run1 run2 fin yld res :
      pool_step (mk_pool q (run1 ++ i :: run2) fin yld res None)
                (mk_pool q (run1 ++ run2) (fin ++ [i]) yld res None)
  | step_collect i r q run fin1 fin2 yld res :
      future_result i = Some (inr r) ->
      pool_step (mk_pool q run (fin1 ++ i :: fin2) yld res None)
                (mk_pool q run (fin1 ++ fin2) (yld ++ [i]) (res ++ [r]) None)
  | step_raise i e q run fin1 fin2 yld res :
      future_result i = Some (inl e) ->
      pool_step (mk_pool q run (fin1 ++ i :: fin2) yld res None)
                (mk_pool q run (fin1 ++ fin2) (yld ++ [i]) res (Some e)).

(** The loop over [as_completed] has ended and the executor has shut
    down: nothing is queued, running or waiting to be collected. *)
Definition at_barrier (st : pool_state) : Prop :=
  queued st = [] /\ running st = [] /\ finished st = [] /\ raised st = None.

(** A complete run of the pool, from submission to the barrier. *)
Definition pool_run (st : pool_state) : Prop :=
  rtc pool_step submitted st /\ at_barrier st.

(** What every reachable state satisfies: each submitted task is in exactly
    one place, the results are those of the yielded futures in the order of
    their yield, and no exception has reached the main thread. *)
Definition pool_inv (st : pool_state) : Prop :=
  queued st ++ running st ++ finished st ++ yielded st ≡ₚ seq 0 (length sites)
  /\ Forall2 (fun i r => future_result i = Some (inr r)) (yielded st) (results st)
  /\ raised st = None.

(** Work left: a queued task has three steps to go, a running one two, a
    finished one the last. *)
Definition work_left (st : pool_state) : nat :=
  (3 * length (queued st) + 2 * length (running st) + length (finished st))%nat.

End pool.

(** A complete run of [main]'s own pool: [MAX_WORKERS] threads, and the
    webhook chosen from the environment and the command line. *)
Definition main_run (isoformat : Z -> string) (env_url : option string)
    (no_slack : bool) (thresholds : gmap string Z)
    (sites : list (gmap string pyval)) (world : nat -> Oracle)
    (st : pool_state) : Prop :=
  pool_run isoformat MAX_WORKERS thresholds (main_webhook env_url no_slack)
    sites world st.

(** ** Vocabulary of the properties *)

Definition status_of (r : CheckResult) : string := r.1.2.
Definition days_of (r : CheckResult) : Z := r.2.

(** The four statuses [check_site] assigns. *)
Definition STATUSES : list string := ["OK"; "WARNING"; "ERROR"; "EXPIRED"].

(** Severity of a status: the exit code [main] computes when a result of
    that status is the only one. *)
Definition severity (status : string) : Z := exit_code [(PNone, status, 0)].

(** The label [check_site] reports for an entry. *)
Definition entry_host (entry : gmap string pyval) : pyval :=
  dict_get entry "host" PNone.

Definition entry_port (entry : gmap string pyval) : pyval :=
  dict_get entry "port" (PInt 443).

Definition entry_label (entry : gmap string pyval) : pyval :=
  dict_get entry "name" (entry_host entry).

(** The same answers of the outside, with another outcome of the webhook call. *)
Definition with_slack (s : option string) (w : Oracle) : Oracle :=
  mk_oracle (cert w) (clock w) s.

(** Concrete inputs on which the statements are instantiated. *)
Definition iso_raw (t : Z) : string := pretty t +:+ "us".

Definition site_example : gmap string pyval :=
  {[ "host" := PStr "example.org" ]}.

Definition site_named : gmap string pyval :=
  {[ "host" := PStr "10.0.0.7"; "port" := PInt 8443; "name" := PStr "intranet" ]}.

Definition hook : option string := Some "https://hooks.example/T0".

(** 2025-01-01T00:00:00Z, in microseconds. *)
Definition new_year_2025 : Z := 1735689600 * datetime.US_PER_SECOND.

Definition in_days (n : Z) : Z := new_year_2025 + n * datetime.US_PER_DAY.

Definition site_down : gmap string pyval :=
  {[ "host" := PStr "down.example"; "port" := PInt 443 ]}.

Definition sites_example : list (gmap string pyval) :=
  [site_example; site_named; site_down].

(** Twenty days left, forty-five days left, and a host that times out; the
    webhook answers with an error. *)
Definition world_example (i : nat) : Oracle :=
  match i with
  | O => mk_oracle (inr (in_days 20)) new_year_2025 (Some "HTTP Error 500")
  | S O => mk_oracle (inr (in_days 45)) new_year_2025 (Some "HTTP Error 500")
  | _ => mk_oracle (inl "timed out") new_year_2025 (Some "HTTP Error 500")
  end.

(** The same world with a webhook that accepts every post. *)
Definition world_example_ok (i : nat) : Oracle := with_slack None (world_example i).

Definition result_0 : CheckResult := (PStr "example.org", "WARNING", 20).
Definition result_1 : CheckResult := (PStr "intranet", "OK", 45).
Definition result_2 : CheckResult := (PStr "down.example", "ERROR", -9999).

(** Two ends of a run over [sites_example]: the sites collected out of
    order, and in the order of submission. *)
Definition st_interleaved : pool_state :=
  mk_pool [] [] [] [1; 0; 2]%nat [result_1; result_0; result_2] None.

Definition st_sequential : pool_state :=
  mk_pool [] [] [] [0; 1; 2]%nat [result_0; result_1; result_2] None.

(** The events a successful check adds after its status line. *)
Definition alert_events (w : Oracle) (slack_webhook : option string)
    (status message : string) : list event :=
  if truthy slack_webhook
     && bool_decide (status ∈ ["WARNING"; "ERROR"; "EXPIRED"])
  then
    HttpPost (default "" slack_webhook) {[ "text" := message ]} ::
    match slack w with
    | Some e => [Stderr ("Failed to send Slack alert: " +:+ e)]
    | None => []
    end
  else [].

(** ** The rest of [main]

    The command line as [argparse] returns it. *)
Record Args : Type := mk_args {
  config : string;
  no_slack : bool
}.

(** The mapping [load_config] reads from the YAML file, with the two keys
    [main] looks up; either may be absent. *)
Record Config : Type := mk_config {
  cfg_sites : option (list (gmap string pyval));
  cfg_thresholds : option (gmap string Z)
}.

(** The codes [main] can hand to [sys.exit]. [fs] answers
    [os.path.exists] and [load_config]: [None] for a path that does not
    exist, the parsed mapping for one that does. *)
Inductive main_exits (isoformat : Z -> string) (args : Args)
    (fs : string -> option Config) (env_url : option string)
    (world : nat -> Oracle) : Z -> Prop :=
  | main_no_config :
      fs (config args) = None ->
      main_exits isoformat args fs env_url world 2
  | main_checked cfg st :
      fs (config args) = Some cfg ->
      main_run isoformat env_url (no_slack args) (default ∅ (cfg_thresholds cfg))
        (default [] (cfg_sites cfg)) world st ->
      main_exits isoformat args fs env_url world (exit_code (results st)).

(** ** Further vocabulary *)

Definition label_of (r : CheckResult) : pyval := r.1.1.

Definition is_stdout (ev : event) : bool :=
  match ev with Stdout _ => true | _ => false end.

Definition is_stderr (ev : event) : bool :=
  match ev with Stderr _ => true | _ => false end.

Definition stdout_lines (evs : list event) : list event := List.filter is_stdout evs.
Definition stderr_lines (evs : list event) : list event := List.filter is_stderr evs.

(** The statuses on which a successful check calls the webhook. *)
Definition ALERTING : list string := ["WARNING"; "ERROR"; "EXPIRED"].

(** The value a finished future holds, when it holds one. *)
Definition future_value (isoformat : Z -> string) (thresholds : gmap string Z)
    (slack_webhook : option string) (sites : list (gmap string pyval))
    (world : nat -> Oracle) (i : nat) : option CheckResult :=
  match future_result isoformat thresholds slack_webhook sites world i with
  | Some (inr r) => Some r
  | _ => None
  end.

(** A file system with one configuration file, and one with none. *)
Definition config_example : Config :=
  mk_config (Some sites_example) None.

Definition fs_example (path : string) : option Config :=
  if String.eqb path "websites.yml" then Some config_example else None.

Definition args_default : Args := mk_args "websites.yml" false.

Definition thresholds_inverted : gmap string Z :=
  {[ "error_days" := 30; "warning_days" := 7 ]}.

(** * Properties *)

(** ** [datetime] subtraction *)

Lemma timedelta_normalised (a b : Z) :
  datetime.total_us (datetime.sub a b) = a - b
  /\ 0 <= datetime.seconds (datetime.sub a b) < 86400
  /\ 0 <= datetime.microseconds (datetime.sub a b) < 1000000.
Proof.
  unfold datetime.total_us, datetime.sub, datetime.timedelta_of_us.
  cbn [datetime.days datetime.seconds datetime.microseconds].
  unfold datetime.US_PER_DAY, datetime.US_PER_SECOND.
  set (d := a - b).
  pose proof (Z.div_mod d (86400 * 1000000) ltac:(lia)) as Hd.
  pose proof (Z.mod_pos_bound d (86400 * 1000000) ltac:(lia)) as Hb.
  set (r := d mod (86400 * 1000000)) in *.
  pose proof (Z.div_mod r 1000000 ltac:(lia)) as Hr.
  pose proof (Z.mod_pos_bound r 1000000 ltac:(lia)) as Hrb.
  assert (Hmm : d mod 1000000 = r mod 1000000).
  { subst r. symmetry. apply Z.mod_mod_divide. exists 86400. lia. }
  rewrite Hmm.
  assert (0 <= r / 1000000 < 86400).
  { split; [apply Z.div_pos; lia|apply Z.div_lt_upper_bound; lia]. }
  lia.
Qed.

Lemma days_until_bounds (w : Oracle) (dt : Z) :
  datetime.US_PER_DAY * days_until w dt <= dt - clock w
    < datetime.US_PER_DAY * (days_until w dt + 1).
Proof.
  unfold days_until, datetime.sub, datetime.timedelta_of_us.
  cbn [datetime.days].
  unfold datetime.US_PER_DAY, datetime.US_PER_SECOND.
  pose proof (Z.div_mod (dt - clock w) (86400 * 1000000) ltac:(lia)).
  pose proof (Z.mod_pos_bound (dt - clock w) (86400 * 1000000) ltac:(lia)).
  lia.
Qed.

Lemma days_until_unique (w : Oracle) (dt d : Z) :
  datetime.US_PER_DAY * d <= dt - clock w < datetime.US_PER_DAY * (d + 1) ->
  days_until w dt = d.
Proof.
  intros Hd. pose proof (days_until_bounds w dt) as Hb.
  unfold datetime.US_PER_DAY, datetime.US_PER_SECOND in *. nia.
Qed.

Lemma days_until_negative_iff (w : Oracle) (dt : Z) :
  days_until w dt < 0 <-> dt < clock w.
Proof.
  pose proof (days_until_bounds w dt) as Hb.
  unfold datetime.US_PER_DAY, datetime.US_PER_SECOND in *. lia.
Qed.

(** ** One endpoint check *)

Section check_site_facts.

Variable isoformat : Z -> string.
Variables (w : Oracle) (entry : gmap string pyval).
Variables (thresholds : gmap string Z) (slack_webhook : option string).

Lemma check_site_success (exp : Z) :
  cert w = inr exp ->
  check_site isoformat w entry thresholds slack_webhook =
    (Stdout (status_line isoformat (entry_label entry) (entry_host entry)
               (entry_port entry) exp (days_until w exp)
               (classify thresholds (days_until w exp)))
       :: alert_events w slack_webhook (classify thresholds (days_until w exp))
            (status_line isoformat (entry_label entry) (entry_host entry)
               (entry_port entry) exp (days_until w exp)
               (classify thresholds (days_until w exp))),
     inr (entry_label entry, classify thresholds (days_until w exp), days_until w exp)).
Proof.
  intros Hc.
  unfold check_site, get_certificate_notAfter, send_slack, alert_events.
  rewrite Hc.
  cbv beta iota zeta delta [bind ret try_except emit raise].
  fold (entry_host entry). fold (entry_port entry). fold (entry_label entry).
  destruct (truthy slack_webhook && _); [destruct (slack w)|]; reflexivity.
Qed.

Lemma check_site_failure (e : string) :
  cert w = inl e ->
  check_site isoformat w entry thresholds slack_webhook =
    (Stderr (error_line (entry_label entry) (entry_host entry) (entry_port entry) e)
       :: (if truthy slack_webhook
           then [HttpPost (default "" slack_webhook)
                   {[ "text" := error_line (entry_label entry) (entry_host entry)
                                  (entry_port entry) e ]}]
           else []),
     inr (entry_label entry, "ERROR", -9999)).
Proof.
  intros Hc. unfold check_site, get_certificate_notAfter, send_slack. rewrite Hc.
  cbv beta iota zeta delta [bind ret try_except emit raise].
  fold (entry_host entry). fold (entry_port entry). fold (entry_label entry).
  destruct (truthy slack_webhook); [destruct (slack w)|]; reflexivity.
Qed.

(** Whatever the outside answers, [check_site] returns a result. *)
Lemma check_site_returns :
  exists r, outcome (check_site isoformat w entry thresholds slack_webhook) = inr r.
Proof.
  destruct (cert w) as [e|exp] eqn:Hc.
  - rewrite (check_site_failure e Hc). eexists. reflexivity.
  - rewrite (check_site_success exp Hc). eexists. reflexivity.
Qed.

End check_site_facts.

(** ** The classification *)

Lemma classify_expired (thresholds : gmap string Z) (days : Z) :
  days < 0 -> classify thresholds days = "EXPIRED".
Proof. intros H. unfold classify. destruct (Z.ltb_spec days 0); [reflexivity|lia]. Qed.

Lemma classify_error (thresholds : gmap string Z) (days : Z) :
  0 <= days <= error_days thresholds -> classify thresholds days = "ERROR".
Proof.
  intros H. unfold classify.
  destruct (Z.ltb_spec days 0); [lia|].
  destruct (Z.leb_spec days (error_days thresholds)); [reflexivity|lia].
Qed.

Lemma classify_warning (thresholds : gmap string Z) (days : Z) :
  0 <= days -> error_days thresholds < days <= warning_days thresholds ->
  classify thresholds days = "WARNING".
Proof.
  intros H0 H. unfold classify.
  destruct (Z.ltb_spec days 0); [lia|].
  destruct (Z.leb_spec days (error_days thresholds)); [lia|].
  destruct (Z.leb_spec days (warning_days thresholds)); [reflexivity|lia].
Qed.

Lemma classify_ok (thresholds : gmap string Z) (days : Z) :
  0 <= days -> error_days thresholds < days -> warning_days thresholds < days ->
  classify thresholds days = "OK".
Proof.
  intros H0 He Hw. unfold classify.
  destruct (Z.ltb_spec days 0); [lia|].
  destruct (Z.leb_spec days (error_days thresholds)); [lia|].
  destruct (Z.leb_spec days (warning_days thresholds)); [lia|reflexivity].
Qed.

(** The four cases of the chain, with the status each one assigns. *)
Lemma classify_cases (thresholds : gmap string Z) (days : Z) :
  (days < 0 /\ classify thresholds days = "EXPIRED")
  \/ (0 <= days <= error_days thresholds /\ classify thresholds days = "ERROR")
  \/ (0 <= days /\ error_days thresholds < days <= warning_days thresholds
      /\ classify thresholds days = "WARNING")
  \/ (0 <= days /\ error_days thresholds < days /\ warning_days thresholds < days
      /\ classify thresholds days = "OK").
Proof.
  destruct (Z.lt_ge_cases days 0) as [Hn|Hn].
  { left. auto using classify_expired. }
  destruct (Z.le_gt_cases days (error_days thresholds)) as [He|He].
  { right; left. auto using classify_error. }
  destruct (Z.le_gt_cases days (warning_days thresholds)) as [Hw|Hw].
  { right; right; left. auto using classify_warning. }
  right; right; right. auto using classify_ok.
Qed.

Lemma severity_values :
  severity "OK" = 0 /\ severity "WARNING" = 1
  /\ severity "ERROR" = 2 /\ severity "EXPIRED" = 2.
Proof. vm_compute. auto. Qed.

(** Three checks run by hand: five days left with a webhook that fails,
    forty-five days left, and a host that does not answer. *)
Example check_five_days_left :
  check_site iso_raw (mk_oracle (inr (in_days 5)) new_year_2025 (Some "HTTP Error 500"))
    site_example ∅ hook
  = ([Stdout "example.org (example.org:443) -> Expires: 1736121600000000us UTC (5 days) [ERROR]";
      HttpPost "https://hooks.example/T0"
        {[ "text" := "example.org (example.org:443) -> Expires: 1736121600000000us UTC (5 days) [ERROR]" ]};
      Stderr "Failed to send Slack alert: HTTP Error 500"],
     inr (PStr "example.org", "ERROR", 5)).
Proof. vm_compute. reflexivity. Qed.

Example check_forty_five_days_left :
  check_site iso_raw (mk_oracle (inr (in_days 45)) new_year_2025 None)
    site_named ∅ hook
  = ([Stdout "intranet (10.0.0.7:8443) -> Expires: 1739577600000000us UTC (45 days) [OK]"],
     inr (PStr "intranet", "OK", 45)).
Proof. vm_compute. reflexivity. Qed.

Example check_unreachable_host :
  check_site iso_raw (mk_oracle (inl "timed out") new_year_2025 None)
    site_down ∅ None
  = ([Stderr "down.example (down.example:443) -> ERROR retrieving certificate: timed out"],
     inr (PStr "down.example", "ERROR", -9999)).
Proof. vm_compute. reflexivity. Qed.

(** C1 (as amended): after a successful retrieval the status follows the
    first-match chain on the day count: negative gives EXPIRED, otherwise at
    most [error_days] (7 when absent) gives ERROR, otherwise at most
    [warning_days] (30 when absent) gives WARNING, otherwise OK. At the
    boundaries: [error_days] itself gives ERROR when it is not negative,
    [error_days + 1] gives WARNING when it is not negative and at most
    [warning_days], [-1] gives EXPIRED, and [warning_days + 1] gives OK when
    it is not negative and [error_days <= warning_days]. *)
Theorem check_site_status_by_precedence
    (isoformat : Z -> string) (w : Oracle) (entry : gmap string pyval)
    (thresholds : gmap string Z) (slack_webhook : option string) (exp : Z) :
  cert w = inr exp ->
  exists status days,
    outcome (check_site isoformat w entry thresholds slack_webhook)
      = inr (entry_label entry, status, days)
    /\ days = days_until w exp
    /\ (days < 0 -> status = "EXPIRED")
    /\ (0 <= days <= error_days thresholds -> status = "ERROR")
    /\ (0 <= days -> error_days thresholds < days <= warning_days thresholds ->
        status = "WARNING")
    /\ (0 <= days -> error_days thresholds < days -> warning_days thresholds < days ->
        status = "OK")
    /\ (thresholds !! "error_days" = None -> error_days thresholds = 7)
    /\ (thresholds !! "warning_days" = None -> warning_days thresholds = 30)
    /\ (days = error_days thresholds -> 0 <= error_days thresholds ->
        status = "ERROR")
    /\ (days = error_days thresholds + 1 -> 0 <= error_days thresholds + 1 ->
        error_days thresholds + 1 <= warning_days thresholds -> status = "WARNING")
    /\ (days = -1 -> status = "EXPIRED")
    /\ (days = warning_days thresholds + 1 -> 0 <= warning_days thresholds + 1 ->
        error_days thresholds <= warning_days thresholds -> status = "OK").
Proof.
  intros Hc.
  exists (classify thresholds (days_until w exp)), (days_until w exp).
  rewrite (check_site_success isoformat w entry thresholds slack_webhook exp Hc).
  split; [reflexivity|]. split; [reflexivity|].
  repeat split.
  - apply classify_expired.
  - apply classify_error.
  - apply classify_warning.
  - apply classify_ok.
  - intros Hn. unfold error_days, dict_get. rewrite Hn. reflexivity.
  - intros Hn. unfold warning_days, dict_get. rewrite Hn. reflexivity.
  - intros Hd He. apply classify_error. lia.
  - intros Hd He Hw. apply classify_warning; lia.
  - intros Hd. apply classify_expired. lia.
  - intros Hd Hw He. apply classify_ok; lia.
Qed.

(** C1 at a concrete input: a certificate with five days left, default
    thresholds. *)
Lemma check_site_status_by_precedence_witness :
  cert (mk_oracle (inr (in_days 5)) new_year_2025 None) = inr (in_days 5)
  /\ exists status days,
       outcome (check_site iso_raw (mk_oracle (inr (in_days 5)) new_year_2025 None)
                  site_example ∅ None)
         = inr (PStr "example.org", status, days)
       /\ days = 5 /\ status = "ERROR".
Proof.
  split; [reflexivity|].
  destruct (check_site_status_by_precedence iso_raw
              (mk_oracle (inr (in_days 5)) new_year_2025 None)
              site_example ∅ None (in_days 5) eq_refl)
    as (status & days & Ho & Hd & _ & Herr & _).
  exists status, days.
  assert (H5 : days = 5) by (rewrite Hd; vm_compute; reflexivity).
  split; [exact Ho|]. split; [exact H5|].
  apply Herr. rewrite H5. vm_compute. split; discriminate.
Defined.

(** C1 as written fails for a negative [error_days]: a day count equal to
    it is negative, and the first test of the chain answers EXPIRED. *)
Lemma boundary_at_negative_error_days :
  ~ (forall (w : Oracle) (thresholds : gmap string Z) (exp : Z),
       cert w = inr exp ->
       error_days thresholds <= warning_days thresholds ->
       days_until w exp = error_days thresholds ->
       exists label,
         outcome (check_site iso_raw w site_example thresholds None)
           = inr (label, "ERROR", error_days thresholds)).
Proof.
  intros H.
  destruct (H (mk_oracle (inr (in_days (-3))) new_year_2025 None)
              {[ "error_days" := -3; "warning_days" := 30 ]} (in_days (-3)))
    as [label Hl].
  - reflexivity.
  - vm_compute. discriminate.
  - vm_compute. reflexivity.
  - vm_compute in Hl. discriminate Hl.
Qed.

(** C4: with [error_days <= warning_days], two successful checks whose day
    counts are ordered get statuses among the four (which are distinct), and
    the check with fewer days left is at least as severe. *)
Theorem classification_total_and_monotone
    (isoformat : Z -> string) (w1 w2 : Oracle) (entry : gmap string pyval)
    (thresholds : gmap string Z) (slack_webhook : option string) (exp1 exp2 : Z) :
  error_days thresholds <= warning_days thresholds ->
  cert w1 = inr exp1 -> cert w2 = inr exp2 ->
  days_until w1 exp1 <= days_until w2 exp2 ->
  exists r1 r2,
    outcome (check_site isoformat w1 entry thresholds slack_webhook) = inr r1
    /\ outcome (check_site isoformat w2 entry thresholds slack_webhook) = inr r2
    /\ days_of r1 = days_until w1 exp1 /\ days_of r2 = days_until w2 exp2
    /\ status_of r1 ∈ STATUSES /\ status_of r2 ∈ STATUSES /\ NoDup STATUSES
    /\ severity (status_of r2) <= severity (status_of r1).
Proof.
  intros Hew H1 H2 Hle.
  rewrite (check_site_success isoformat w1 entry thresholds slack_webhook exp1 H1).
  rewrite (check_site_success isoformat w2 entry thresholds slack_webhook exp2 H2).
  do 2 eexists. do 4 (split; [reflexivity|]).
  unfold status_of, outcome; cbn [fst snd].
  destruct severity_values as (Sok & Swarn & Serr & Sexp).
  assert (Hnd : NoDup STATUSES).
  { compute_done. }
  destruct (classify_cases thresholds (days_until w1 exp1))
    as [[Ha ->]|[[Ha ->]|[(Ha & Ha' & ->)|(Ha & Ha' & Ha'' & ->)]]];
  destruct (classify_cases thresholds (days_until w2 exp2))
    as [[Hb ->]|[[Hb ->]|[(Hb & Hb' & ->)|(Hb & Hb' & Hb'' & ->)]]];
  (split; [compute_done|]);
  (split; [compute_done|]);
  (split; [exact Hnd|]);
  rewrite ?Sok, ?Swarn, ?Serr, ?Sexp; lia.
Qed.

(** C4 at a concrete input: three days left against forty-five. *)
Lemma classification_total_and_monotone_witness :
  exists r1 r2,
    outcome (check_site iso_raw (mk_oracle (inr (in_days 3)) new_year_2025 None)
               site_example ∅ hook) = inr r1
    /\ outcome (check_site iso_raw (mk_oracle (inr (in_days 45)) new_year_2025 None)
                  site_example ∅ hook) = inr r2
    /\ severity (status_of r2) <= severity (status_of r1).
Proof.
  destruct (classification_total_and_monotone iso_raw
              (mk_oracle (inr (in_days 3)) new_year_2025 None)
              (mk_oracle (inr (in_days 45)) new_year_2025 None)
              site_example ∅ hook (in_days 3) (in_days 45))
    as (r1 & r2 & Ho1 & Ho2 & _ & _ & _ & _ & _ & Hs).
  - vm_compute. discriminate.
  - reflexivity.
  - reflexivity.
  - vm_compute. discriminate.
  - exists r1, r2. auto.
Defined.

(** ** The day count *)

(** C5: the day count is the floor of the duration from now to the expiry,
    in whole days: a positive duration shorter than a day gives 0 (so does
    0.9 days), every negative duration gives a negative count (a tenth of a
    day in the past gives -1, not 0), and this count is the one a
    successful check returns. *)
Theorem days_until_is_floor (w : Oracle) (dt : Z) :
  (datetime.US_PER_DAY * days_until w dt <= dt - clock w
     < datetime.US_PER_DAY * (days_until w dt + 1))
  /\ (0 < dt - clock w < datetime.US_PER_DAY -> days_until w dt = 0)
  /\ (dt - clock w < 0 -> days_until w dt < 0)
  /\ days_until (mk_oracle (inr (in_days 0 + 77760 * datetime.US_PER_SECOND))
                   (in_days 0) None)
       (in_days 0 + 77760 * datetime.US_PER_SECOND) = 0
  /\ days_until (mk_oracle (inr (in_days 0 - 8640 * datetime.US_PER_SECOND))
                   (in_days 0) None)
       (in_days 0 - 8640 * datetime.US_PER_SECOND) = -1
  /\ (forall isoformat entry thresholds slack_webhook,
        cert w = inr dt ->
        exists r,
          outcome (check_site isoformat w entry thresholds slack_webhook) = inr r
          /\ days_of r = days_until w dt).
Proof.
  pose proof (days_until_bounds w dt) as Hb.
  split; [exact Hb|].
  split.
  { intros Hpos. apply days_until_unique. lia. }
  split.
  { intros Hneg. apply days_until_negative_iff. lia. }
  split; [vm_compute; reflexivity|].
  split; [vm_compute; reflexivity|].
  intros isoformat entry thresholds slack_webhook Hc.
  rewrite (check_site_success isoformat w entry thresholds slack_webhook dt Hc).
  eexists. split; reflexivity.
Qed.

(** C10: after a successful retrieval the status is EXPIRED exactly when
    the expiry lies strictly before the current time: a certificate still
    valid has a day count of at least 0, one expired by any amount has a
    day count of at most -1. *)
Theorem expired_iff_expiry_in_the_past
    (isoformat : Z -> string) (w : Oracle) (entry : gmap string pyval)
    (thresholds : gmap string Z) (slack_webhook : option string) (exp : Z) :
  cert w = inr exp ->
  exists r,
    outcome (check_site isoformat w entry thresholds slack_webhook) = inr r
    /\ (status_of r = "EXPIRED" <-> exp < clock w)
    /\ (clock w <= exp -> 0 <= days_of r /\ status_of r <> "EXPIRED")
    /\ (exp < clock w -> days_of r <= -1 /\ status_of r = "EXPIRED").
Proof.
  intros Hc.
  rewrite (check_site_success isoformat w entry thresholds slack_webhook exp Hc).
  eexists. split; [reflexivity|].
  unfold status_of, days_of; cbn [fst snd].
  pose proof (days_until_negative_iff w exp) as Hneg.
  assert (Hst : classify thresholds (days_until w exp) = "EXPIRED"
                <-> days_until w exp < 0).
  { split; [|apply classify_expired].
    destruct (classify_cases thresholds (days_until w exp))
      as [[Ha _]|[[Ha He]|[(Ha & _ & He)|(Ha & _ & _ & He)]]];
      [tauto|rewrite He; discriminate..]. }
  split; [tauto|].
  split; intros Hcmp.
  - split; [lia|]. rewrite Hst. lia.
  - split; [lia|]. apply Hst. lia.
Qed.

(** C10 at a concrete input: a certificate that expired one second ago. *)
Lemma expired_iff_expiry_in_the_past_witness :
  exists r,
    outcome (check_site iso_raw
               (mk_oracle (inr (new_year_2025 - datetime.US_PER_SECOND))
                  new_year_2025 None)
               site_named ∅ None) = inr r
    /\ status_of r = "EXPIRED" /\ days_of r <= -1.
Proof.
  destruct (expired_iff_expiry_in_the_past iso_raw
              (mk_oracle (inr (new_year_2025 - datetime.US_PER_SECOND))
                 new_year_2025 None)
              site_named ∅ None (new_year_2025 - datetime.US_PER_SECOND) eq_refl)
    as (r & Ho & _ & _ & Hpast).
  exists r. split; [exact Ho|].
  assert (Hlt : new_year_2025 - datetime.US_PER_SECOND < new_year_2025)
    by (vm_compute; reflexivity).
  destruct (Hpast Hlt) as [Hd Hs]. split; assumption.
Defined.

(** ** The sentinel *)

(** C6 as written fails: a certificate that expired 9999 days before the
    check (August 1997, seen on 2025-01-01) has the day count -9999. *)
Lemma sentinel_is_a_possible_day_count :
  ~ (forall (w : Oracle) (exp : Z) (r : CheckResult),
       cert w = inr exp ->
       outcome (check_site iso_raw w site_example ∅ None) = inr r ->
       days_of r <> -9999).
Proof.
  intros H.
  apply (H (mk_oracle (inr (in_days (-9999))) new_year_2025 None)
           (in_days (-9999)) (PStr "example.org", "EXPIRED", -9999)).
  - reflexivity.
  - vm_compute. reflexivity.
  - reflexivity.
Qed.

(** C6 (as amended): a successful check returns the day count -9999 only
    for a certificate that expired at least 9998 and at most 9999 days
    before the check, and then with status EXPIRED; so the result of a
    failed retrieval, status ERROR with -9999, is returned by no successful
    check. *)
Theorem sentinel_result_out_of_band
    (isoformat : Z -> string) (w w' : Oracle) (entry : gmap string pyval)
    (thresholds : gmap string Z) (slack_webhook : option string)
    (exp : Z) (e : string) :
  cert w = inr exp -> cert w' = inl e ->
  exists r r',
    outcome (check_site isoformat w entry thresholds slack_webhook) = inr r
    /\ outcome (check_site isoformat w' entry thresholds slack_webhook) = inr r'
    /\ status_of r' = "ERROR" /\ days_of r' = -9999
    /\ (days_of r = -9999 <->
        datetime.US_PER_DAY * -9999 <= exp - clock w < datetime.US_PER_DAY * -9998)
    /\ (days_of r = -9999 -> status_of r = "EXPIRED")
    /\ r <> r'.
Proof.
  intros Hc Hc'.
  rewrite (check_site_success isoformat w entry thresholds slack_webhook exp Hc).
  rewrite (check_site_failure isoformat w' entry thresholds slack_webhook e Hc').
  do 2 eexists. do 4 (split; [reflexivity|]).
  unfold status_of, days_of, outcome; cbn [fst snd].
  pose proof (days_until_bounds w exp) as Hb.
  assert (Hexp : days_until w exp = -9999 ->
                 classify thresholds (days_until w exp) = "EXPIRED").
  { intros Hd. apply classify_expired. lia. }
  split; [|split; [exact Hexp|]].
  - split; intros Hd.
    + rewrite Hd in Hb. lia.
    + apply days_until_unique. lia.
  - intros Heq. injection Heq as Hs Hd.
    rewrite (Hexp Hd) in Hs. discriminate Hs.
Qed.

(** C6 at a concrete input: the 1997 certificate against an unreachable host. *)
Lemma sentinel_result_out_of_band_witness :
  exists r r',
    outcome (check_site iso_raw (mk_oracle (inr (in_days (-9999))) new_year_2025 None)
               site_example ∅ hook) = inr r
    /\ outcome (check_site iso_raw (mk_oracle (inl "timed out") new_year_2025 None)
                  site_example ∅ hook) = inr r'
    /\ days_of r = days_of r' /\ r <> r'.
Proof.
  destruct (sentinel_result_out_of_band iso_raw
              (mk_oracle (inr (in_days (-9999))) new_year_2025 None)
              (mk_oracle (inl "timed out") new_year_2025 None)
              site_example ∅ hook (in_days (-9999)) "timed out" eq_refl eq_refl)
    as (r & r' & Ho & Ho' & _ & Hd' & Hiff & _ & Hne).
  exists r, r'. split; [exact Ho|]. split; [exact Ho'|]. split; [|exact Hne].
  rewrite Hd'. apply Hiff. vm_compute. split; [discriminate|reflexivity].
Defined.

(** ** Notifications *)

Lemma notifications_of_alert (w : Oracle) (slack_webhook : option string)
    (status message : string) :
  truthy slack_webhook = true ->
  notifications (alert_events w slack_webhook status message) =
    if bool_decide (status ∈ ["WARNING"; "ERROR"; "EXPIRED"])
    then [HttpPost (default "" slack_webhook) {[ "text" := message ]}]
    else [].
Proof.
  intros Ht. unfold alert_events. rewrite Ht. cbn [andb].
  destruct (bool_decide _); [|reflexivity].
  destruct (slack w); reflexivity.
Qed.

Lemma truthy_main_webhook (url : string) :
  url <> "" -> truthy (main_webhook (Some url) false) = true.
Proof.
  intros Hne. cbn [main_webhook truthy].
  destruct (String.eqb_spec url ""); [contradiction|reflexivity].
Qed.

(** C7: with a webhook configured (a non-empty URL in the environment) and
    not suppressed, a successful check whose status is OK posts nothing,
    and one whose status is WARNING, ERROR or EXPIRED posts exactly once,
    its status line, whether or not the post succeeds. *)
Theorem notification_gating
    (isoformat : Z -> string) (w : Oracle) (entry : gmap string pyval)
    (thresholds : gmap string Z) (url : string) (exp : Z) :
  url <> "" -> cert w = inr exp ->
  exists r,
    outcome (check_site isoformat w entry thresholds (main_webhook (Some url) false))
      = inr r
    /\ (status_of r = "OK" \/ status_of r ∈ ["WARNING"; "ERROR"; "EXPIRED"])
    /\ (status_of r = "OK" ->
        notifications
          (output (check_site isoformat w entry thresholds
                     (main_webhook (Some url) false))) = [])
    /\ (status_of r ∈ ["WARNING"; "ERROR"; "EXPIRED"] ->
        notifications
          (output (check_site isoformat w entry thresholds
                     (main_webhook (Some url) false)))
        = [HttpPost url
             {[ "text" := status_line isoformat (entry_label entry) (entry_host entry)
                            (entry_port entry) exp (days_of r) (status_of r) ]}]).
Proof.
  intros Hurl Hc.
  rewrite (check_site_success isoformat w entry thresholds _ exp Hc).
  eexists. split; [reflexivity|].
  unfold status_of, days_of, output; cbn [fst snd].
  set (status := classify thresholds (days_until w exp)).
  set (message := status_line _ _ _ _ _ _ _).
  change (notifications (Stdout message :: ?l)) with (notifications l).
  rewrite (notifications_of_alert w _ status message (truthy_main_webhook url Hurl)).
  split.
  { subst status.
    destruct (classify_cases thresholds (days_until w exp))
      as [[_ ->]|[[_ ->]|[(_ & _ & ->)|(_ & _ & _ & ->)]]];
      first [left; reflexivity | right; compute_done]. }
  split.
  - intros ->. reflexivity.
  - intros Hin. rewrite bool_decide_eq_true_2 by exact Hin. reflexivity.
Qed.

(** C7 at a concrete input: five days left posts once, forty-five posts nothing. *)
Lemma notification_gating_witness :
  length (notifications
            (output (check_site iso_raw
                       (mk_oracle (inr (in_days 5)) new_year_2025 (Some "HTTP Error 500"))
                       site_example ∅
                       (main_webhook (Some "https://hooks.example/T0") false)))) = 1%nat
  /\ notifications
       (output (check_site iso_raw
                  (mk_oracle (inr (in_days 45)) new_year_2025 None)
                  site_example ∅
                  (main_webhook (Some "https://hooks.example/T0") false))) = [].
Proof.
  split.
  - destruct (notification_gating iso_raw
                (mk_oracle (inr (in_days 5)) new_year_2025 (Some "HTTP Error 500"))
                site_example ∅ "https://hooks.example/T0" (in_days 5))
      as (r & Ho & _ & _ & Hpost); [discriminate|reflexivity|].
    assert (Hr : r = (PStr "example.org", "ERROR", 5)).
    { vm_compute in Ho. injection Ho as <-. reflexivity. }
    rewrite Hpost; [reflexivity|]. rewrite Hr. compute_done.
  - destruct (notification_gating iso_raw
                (mk_oracle (inr (in_days 45)) new_year_2025 None)
                site_example ∅ "https://hooks.example/T0" (in_days 45))
      as (r & Ho & _ & Hquiet & _); [discriminate|reflexivity|].
    assert (Hr : r = (PStr "example.org", "OK", 45)).
    { vm_compute in Ho. injection Ho as <-. reflexivity. }
    apply Hquiet. rewrite Hr. reflexivity.
Defined.

(** ** The exit code *)

Lemma codes_spec (results : list CheckResult) (s : string) :
  s ∈ (list_to_set ((fun r : CheckResult => r.1.2) <$> results) : gset string)
  <-> Exists (fun r => status_of r = s) results.
Proof.
  rewrite elem_of_list_to_set, list_elem_of_fmap, Exists_exists.
  split.
  - intros (r & -> & Hin). exists r. split; [exact Hin|reflexivity].
  - intros (r & Hin & <-). exists r. split; [reflexivity|exact Hin].
Qed.

(** C2: the exit code is 2 as soon as one result is ERROR or EXPIRED,
    otherwise 1 as soon as one is WARNING, otherwise 0; further OK or
    WARNING results change nothing, and the day counts are not read. *)
Theorem exit_code_precedence (results : list CheckResult) :
  (Exists (fun r => status_of r = "ERROR" \/ status_of r = "EXPIRED") results ->
   exit_code results = 2)
  /\ (~ Exists (fun r => status_of r = "ERROR" \/ status_of r = "EXPIRED") results ->
      Exists (fun r => status_of r = "WARNING") results ->
      exit_code results = 1)
  /\ (~ Exists (fun r => status_of r = "ERROR" \/ status_of r = "EXPIRED") results ->
      ~ Exists (fun r => status_of r = "WARNING") results ->
      exit_code results = 0)
  /\ (forall more : list CheckResult,
        Forall (fun r => status_of r = "OK" \/ status_of r = "WARNING") more ->
        Exists (fun r => status_of r = "ERROR" \/ status_of r = "EXPIRED") results ->
        exit_code (results ++ more) = 2 /\ exit_code (more ++ results) = 2)
  /\ (forall results' : list CheckResult,
        status_of <$> results = status_of <$> results' ->
        exit_code results = exit_code results').
Proof.
  assert (Hbad : forall rs : list CheckResult,
            Exists (fun r => status_of r = "ERROR" \/ status_of r = "EXPIRED") rs ->
            exit_code rs = 2).
  { intros rs Hex. unfold exit_code. cbv zeta.
    apply Exists_exists in Hex as (r & Hin & [Hs|Hs]).
    - rewrite (bool_decide_eq_true_2 ("ERROR" ∈ _)); [reflexivity|].
      apply codes_spec, Exists_exists. eauto.
    - rewrite (bool_decide_eq_true_2 ("EXPIRED" ∈ _)).
      + rewrite orb_true_r. reflexivity.
      + apply codes_spec, Exists_exists. eauto. }
  assert (Hgood : forall rs : list CheckResult,
            ~ Exists (fun r => status_of r = "ERROR" \/ status_of r = "EXPIRED") rs ->
            exit_code rs =
              if bool_decide
                   ("WARNING" ∈ (list_to_set ((fun r : CheckResult => r.1.2) <$> rs)
                                  : gset string))
              then 1 else 0).
  { intros rs Hno. unfold exit_code. cbv zeta.
    rewrite (bool_decide_eq_false_2 ("ERROR" ∈ _)).
    2:{ rewrite codes_spec. intros Hex. apply Hno.
        eapply Exists_impl; [exact Hex|]. cbn. auto. }
    rewrite (bool_decide_eq_false_2 ("EXPIRED" ∈ _)).
    2:{ rewrite codes_spec. intros Hex. apply Hno.
        eapply Exists_impl; [exact Hex|]. cbn. auto. }
    reflexivity. }
  split; [apply Hbad|].
  split.
  { intros Hno Hw. rewrite (Hgood _ Hno).
    rewrite bool_decide_eq_true_2; [reflexivity|]. apply codes_spec, Hw. }
  split.
  { intros Hno Hw. rewrite (Hgood _ Hno).
    rewrite bool_decide_eq_false_2; [reflexivity|]. rewrite codes_spec. exact Hw. }
  split.
  { intros more _ Hex. split; apply Hbad; apply Exists_app; auto. }
  intros results' Heq. unfold exit_code.
  change (fun r : CheckResult => r.1.2) with status_of.
  rewrite Heq. reflexivity.
Qed.

Example exit_code_samples :
  exit_code [(PStr "a", "OK", 40); (PStr "b", "OK", 90)] = 0
  /\ exit_code [(PStr "a", "OK", 40); (PStr "b", "WARNING", 12)] = 1
  /\ exit_code [(PStr "a", "OK", 40); (PStr "b", "WARNING", 12); (PStr "c", "ERROR", 2)] = 2
  /\ exit_code [] = 0.
Proof. vm_compute. auto. Qed.

(** ** The thread pool *)

Section pool_facts.

Variable isoformat : Z -> string.
Variable max_workers : nat.
Variable thresholds : gmap string Z.
Variable slack_webhook : option string.
Variable sites : list (gmap string pyval).
Variable world : nat -> Oracle.

Local Abbreviation step := (pool_step isoformat max_workers thresholds slack_webhook sites world).
Local Abbreviation inv := (pool_inv isoformat thresholds slack_webhook sites world).
Local Abbreviation future := (future_result isoformat thresholds slack_webhook sites world).

Lemma future_result_returns (i : nat) :
  (i < length sites)%nat -> exists r, future i = Some (inr r).
Proof.
  intros Hi. unfold future_result.
  destruct (lookup_lt_is_Some_2 sites i Hi) as [site Hs]. rewrite Hs. cbn.
  destruct (check_site_returns isoformat (world i) site thresholds slack_webhook)
    as [r Hr].
  exists r. rewrite Hr. reflexivity.
Qed.

Lemma future_result_never_raises (i : nat) (e : string) :
  future i <> Some (inl e).
Proof.
  unfold future_result. destruct (sites !! i) as [site|]; cbn; [|discriminate].
  destruct (check_site_returns isoformat (world i) site thresholds slack_webhook)
    as [r Hr].
  rewrite Hr. discriminate.
Qed.

Lemma pool_inv_submitted : inv (submitted sites).
Proof.
  unfold pool_inv, submitted; cbn. rewrite app_nil_r.
  split; [reflexivity|]. split; [constructor|reflexivity].
Qed.

Lemma pool_inv_step (st st' : pool_state) :
  inv st -> step st st' -> inv st'.
Proof.
  intros (Hperm & Hres & Hraised) Hstep.
  destruct Hstep as [i q run fin yld res Hfree
                    |i q run1 run2 fin yld res
                    |i r q run fin1 fin2 yld res Hfut
                    |i e q run fin1 fin2 yld res Hfut];
    unfold pool_inv in *; cbn [queued running finished yielded results raised] in *.
  - split; [|split; assumption].
    rewrite <- Hperm, <- !(assoc_L (++)). cbn.
    rewrite <- !Permutation_middle. reflexivity.
  - split; [|split; assumption].
    rewrite <- Hperm, <- !(assoc_L (++)). cbn.
    rewrite <- !Permutation_middle. reflexivity.
  - split; [|split; [|reflexivity]].
    + rewrite <- Hperm, <- !(assoc_L (++)). cbn.
      rewrite <- !Permutation_middle, app_nil_r. reflexivity.
    + apply Forall2_app; [assumption|]. constructor; [assumption|constructor].
  - exfalso. exact (future_result_never_raises i e Hfut).
Qed.

Lemma pool_inv_reachable (st : pool_state) :
  rtc step (submitted sites) st -> inv st.
Proof.
  revert st. apply rtc_ind_r.
  - apply pool_inv_submitted.
  - intros st st' _ Hstep IH. exact (pool_inv_step st st' IH Hstep).
Qed.

(** Every step does one unit of the remaining work: no run is infinite. *)
Lemma pool_step_decreases (st st' : pool_state) :
  step st st' -> (work_left st' < work_left st)%nat.
Proof.
  intros Hstep. destruct Hstep; unfold work_left;
    cbn [queued running finished]; rewrite ?length_app; cbn [length]; lia.
Qed.

(** Short of the barrier some step is always possible: no run is stuck. *)
Lemma pool_no_deadlock (st : pool_state) :
  (0 < max_workers)%nat -> inv st ->
  at_barrier st \/ exists st', step st st'.
Proof.
  intros Hw (Hperm & Hres & Hraised).
  destruct st as [q run fin yld res rsd];
    cbn [queued running finished yielded results raised] in *. subst rsd.
  destruct fin as [|i fin].
  2:{ right.
      assert (Hi : (i < length sites)%nat).
      { apply (elem_of_seq 0). rewrite <- Hperm. set_solver. }
      destruct (future_result_returns i Hi) as [r Hr].
      eexists. apply (step_collect _ _ _ _ _ _ i r q run [] fin yld res Hr). }
  destruct run as [|i run].
  2:{ right. eexists. apply (step_finish _ _ _ _ _ _ i q [] run [] yld res). }
  destruct q as [|i q].
  - left. repeat split.
  - right. eexists. apply step_start. cbn. exact Hw.
Qed.

(** One task after the other: a schedule that always exists. *)
Lemma pool_drain (q yld : list nat) (res : list CheckResult) :
  (0 < max_workers)%nat ->
  Forall (fun i => (i < length sites)%nat) q ->
  exists yld' res',
    rtc step (mk_pool q [] [] yld res None) (mk_pool [] [] [] yld' res' None).
Proof.
  intros Hw Hq. revert yld res.
  induction Hq as [|i q Hi Hq IH]; intros yld res.
  - exists yld, res. apply rtc_refl.
  - destruct (future_result_returns i Hi) as [r Hr].
    destruct (IH (yld ++ [i]) (res ++ [r])) as (yld' & res' & Hrun).
    exists yld', res'.
    eapply rtc_l; [apply step_start; cbn; exact Hw|].
    eapply rtc_l; [apply (step_finish _ _ _ _ _ _ i q [] [] [] yld res)|].
    eapply rtc_l; [apply (step_collect _ _ _ _ _ _ i r q [] [] [] yld res Hr)|].
    exact Hrun.
Qed.

Lemma pool_run_exists :
  (0 < max_workers)%nat ->
  exists st, pool_run isoformat max_workers thresholds slack_webhook sites world st.
Proof.
  intros Hw.
  destruct (pool_drain (seq 0 (length sites)) [] [] Hw) as (yld & res & Hrun).
  { apply Forall_forall. intros i Hi. apply elem_of_seq in Hi. lia. }
  eexists. split; [exact Hrun|]. repeat split.
Qed.

(** At the barrier the yielded futures are the submitted ones. *)
Lemma pool_run_yields_all (st : pool_state) :
  pool_run isoformat max_workers thresholds slack_webhook sites world st ->
  yielded st ≡ₚ seq 0 (length sites)
  /\ Forall2 (fun i r => future i = Some (inr r)) (yielded st) (results st).
Proof.
  intros [Hreach (Hq & Hr & Hf & _)].
  destruct (pool_inv_reachable st Hreach) as (Hperm & Hres & _).
  rewrite Hq, Hr, Hf in Hperm. cbn in Hperm. auto.
Qed.

(** The results at the barrier are those of the submitted sites. *)
Lemma pool_run_results (st : pool_state) (r : CheckResult) :
  pool_run isoformat max_workers thresholds slack_webhook sites world st ->
  r ∈ results st <->
  exists i, (i < length sites)%nat /\ future i = Some (inr r).
Proof.
  intros Hrun. destruct (pool_run_yields_all st Hrun) as [Hperm Hres].
  split.
  - intros Hin. apply list_elem_of_lookup in Hin as [k Hk].
    destruct (Forall2_lookup_r _ _ _ _ _ Hres Hk) as (i & Hi & Hfut).
    exists i. split; [|exact Hfut].
    apply (elem_of_seq 0). rewrite <- Hperm.
    apply list_elem_of_lookup. eauto.
  - intros (i & Hi & Hfut).
    assert (Hin : i ∈ yielded st).
    { rewrite Hperm. apply elem_of_seq. lia. }
    apply list_elem_of_lookup in Hin as [k Hk].
    destruct (Forall2_lookup_l _ _ _ _ _ Hres Hk) as (r' & Hr' & Hfut').
    rewrite Hfut in Hfut'. injection Hfut' as <-.
    apply list_elem_of_lookup. eauto.
Qed.

End pool_facts.

(** Two workers, three sites: the second site is collected first. *)
Lemma interleaved_run :
  pool_run iso_raw 2 ∅ hook sites_example world_example st_interleaved.
Proof.
  assert (H0 : future_result iso_raw ∅ hook sites_example world_example 0
               = Some (inr result_0)) by (vm_compute; reflexivity).
  assert (H1 : future_result iso_raw ∅ hook sites_example world_example 1
               = Some (inr result_1)) by (vm_compute; reflexivity).
  assert (H2 : future_result iso_raw ∅ hook sites_example world_example 2
               = Some (inr result_2)) by (vm_compute; reflexivity).
  split; [|repeat split].
  unfold submitted, st_interleaved. cbn [length sites_example seq].
  eapply rtc_l; [apply step_start; cbn; lia|]. cbn [app].
  eapply rtc_l; [apply step_start; cbn; lia|]. cbn [app].
  eapply rtc_l; [apply (step_finish _ _ _ _ _ _ 1%nat [2%nat] [0%nat] [] [] [] [])|].
  cbn [app].
  eapply rtc_l; [apply step_start; cbn; lia|]. cbn [app].
  eapply rtc_l;
    [apply (step_collect _ _ _ _ _ _ 1%nat result_1 [] [0; 2]%nat [] [] [] [] H1)|].
  cbn [app].
  eapply rtc_l;
    [apply (step_finish _ _ _ _ _ _ 2%nat [] [0%nat] [] [] [1%nat] [result_1])|].
  cbn [app].
  eapply rtc_l;
    [apply (step_finish _ _ _ _ _ _ 0%nat [] [] [] [2%nat] [1%nat] [result_1])|].
  cbn [app].
  eapply rtc_l;
    [apply (step_collect _ _ _ _ _ _ 0%nat result_0 [] [] [2%nat] [] [1%nat]
              [result_1] H0)|].
  cbn [app].
  eapply rtc_l;
    [apply (step_collect _ _ _ _ _ _ 2%nat result_2 [] [] [] [] [1; 0]%nat
              [result_1; result_0] H2)|].
  cbn [app]. apply rtc_refl.
Qed.

(** The same sites, a webhook that works, one task at a time. *)
Lemma sequential_run :
  pool_run iso_raw 2 ∅ hook sites_example world_example_ok st_sequential.
Proof.
  assert (H0 : future_result iso_raw ∅ hook sites_example world_example_ok 0
               = Some (inr result_0)) by (vm_compute; reflexivity).
  assert (H1 : future_result iso_raw ∅ hook sites_example world_example_ok 1
               = Some (inr result_1)) by (vm_compute; reflexivity).
  assert (H2 : future_result iso_raw ∅ hook sites_example world_example_ok 2
               = Some (inr result_2)) by (vm_compute; reflexivity).
  split; [|repeat split].
  unfold submitted, st_sequential. cbn [length sites_example seq].
  eapply rtc_l; [apply step_start; cbn; lia|]. cbn [app].
  eapply rtc_l; [apply (step_finish _ _ _ _ _ _ 0%nat [1; 2]%nat [] [] [] [] [])|].
  cbn [app].
  eapply rtc_l;
    [apply (step_collect _ _ _ _ _ _ 0%nat result_0 [1; 2]%nat [] [] [] [] [] H0)|].
  cbn [app].
  eapply rtc_l; [apply step_start; cbn; lia|]. cbn [app].
  eapply rtc_l;
    [apply (step_finish _ _ _ _ _ _ 1%nat [2%nat] [] [] [] [0%nat] [result_0])|].
  cbn [app].
  eapply rtc_l;
    [apply (step_collect _ _ _ _ _ _ 1%nat result_1 [2%nat] [] [] [] [0%nat]
              [result_0] H1)|].
  cbn [app].
  eapply rtc_l; [apply step_start; cbn; lia|]. cbn [app].
  eapply rtc_l;
    [apply (step_finish _ _ _ _ _ _ 2%nat [] [] [] [] [0; 1]%nat
              [result_0; result_1])|].
  cbn [app].
  eapply rtc_l;
    [apply (step_collect _ _ _ _ _ _ 2%nat result_2 [] [] [] [] [0; 1]%nat
              [result_0; result_1] H2)|].
  cbn [app]. apply rtc_refl.
Qed.

(** C9: with at least one worker, whatever the number of sites, the pool
    reaches the barrier (some run does, no run is stuck short of it, and
    every step uses up work), and at the barrier the result list has one
    entry per submitted site: the yielded futures are the submitted ones,
    each once, and the results are theirs. In particular every complete
    run of [main]'s pool of [MAX_WORKERS] threads ends with as many results
    as sites. *)
Theorem pool_collects_one_result_per_site
    (isoformat : Z -> string) (max_workers : nat) (thresholds : gmap string Z)
    (slack_webhook : option string) (sites : list (gmap string pyval))
    (world : nat -> Oracle) :
  (0 < max_workers)%nat ->
  (exists st, pool_run isoformat max_workers thresholds slack_webhook sites world st)
  /\ (forall st,
        rtc (pool_step isoformat max_workers thresholds slack_webhook sites world)
          (submitted sites) st ->
        at_barrier st
        \/ exists st',
             pool_step isoformat max_workers thresholds slack_webhook sites world st st')
  /\ (forall st st',
        pool_step isoformat max_workers thresholds slack_webhook sites world st st' ->
        (work_left st' < work_left st)%nat)
  /\ (forall st,
        pool_run isoformat max_workers thresholds slack_webhook sites world st ->
        length (results st) = length sites
        /\ yielded st ≡ₚ seq 0 (length sites)
        /\ NoDup (yielded st)
        /\ Forall2
             (fun i r =>
                future_result isoformat thresholds slack_webhook sites world i
                  = Some (inr r))
             (yielded st) (results st))
  /\ (forall env_url no_slack st,
        main_run isoformat env_url no_slack thresholds sites world st ->
        length (results st) = length sites).
Proof.
  intros Hw.
  assert (Hcount : forall K wh st,
            pool_run isoformat K thresholds wh sites world st ->
            length (results st) = length sites).
  { intros K wh st Hrun.
    destruct (pool_run_yields_all _ _ _ _ _ _ st Hrun) as [Hperm Hres].
    rewrite <- (Forall2_length _ _ _ Hres), Hperm. apply length_seq. }
  split; [apply pool_run_exists; exact Hw|].
  split.
  { intros st Hreach. apply pool_no_deadlock; [exact Hw|].
    apply pool_inv_reachable with (max_workers := max_workers). exact Hreach. }
  split; [apply pool_step_decreases|].
  split; [|intros env_url no_slack st Hrun; exact (Hcount _ _ st Hrun)].
  intros st Hrun.
  destruct (pool_run_yields_all _ _ _ _ _ _ st Hrun) as [Hperm Hres].
  split; [exact (Hcount _ _ st Hrun)|].
  split; [exact Hperm|].
  split; [|exact Hres].
  rewrite Hperm. apply NoDup_seq.
Qed.

(** C9 at a concrete input: three sites on two workers, collected out of order. *)
Lemma pool_collects_one_result_per_site_witness :
  (0 < 2)%nat
  /\ pool_run iso_raw 2 ∅ hook sites_example world_example st_interleaved
  /\ length (results st_interleaved) = length sites_example
  /\ NoDup (yielded st_interleaved).
Proof.
  split; [lia|]. split; [exact interleaved_run|].
  destruct (pool_collects_one_result_per_site iso_raw 2 ∅ hook sites_example
              world_example ltac:(lia))
    as (_ & _ & _ & Hall & _).
  destruct (Hall st_interleaved interleaved_run) as (Hlen & _ & Hnd & _).
  split; assumption.
Defined.

(** ** Failures stay inside the check *)

(** C3: [check_site] always returns a result. When the retrieval fails it
    returns status ERROR with the day count -9999, its first output is the
    error line on the error stream, and nothing goes to standard output.
    In the pool no exception ever reaches the main thread, and what a
    future returns depends on what the outside answers to its own task only. *)
Theorem check_site_never_raises
    (isoformat : Z -> string) (w : Oracle) (entry : gmap string pyval)
    (thresholds : gmap string Z) (slack_webhook : option string) :
  (exists r, outcome (check_site isoformat w entry thresholds slack_webhook) = inr r)
  /\ (forall e, cert w = inl e ->
        outcome (check_site isoformat w entry thresholds slack_webhook)
          = inr (entry_label entry, "ERROR", -9999)
        /\ head (output (check_site isoformat w entry thresholds slack_webhook))
           = Some (Stderr (error_line (entry_label entry) (entry_host entry)
                             (entry_port entry) e))
        /\ Forall (fun ev => forall line, ev <> Stdout line)
             (output (check_site isoformat w entry thresholds slack_webhook)))
  /\ (forall max_workers sites world st,
        rtc (pool_step isoformat max_workers thresholds slack_webhook sites world)
          (submitted sites) st ->
        raised st = None)
  /\ (forall sites (world1 world2 : nat -> Oracle) i,
        world1 i = world2 i ->
        future_result isoformat thresholds slack_webhook sites world1 i
        = future_result isoformat thresholds slack_webhook sites world2 i).
Proof.
  split; [apply check_site_returns|].
  split.
  { intros e Hc.
    rewrite (check_site_failure isoformat w entry thresholds slack_webhook e Hc).
    unfold outcome, output; cbn [fst snd head].
    split; [reflexivity|]. split; [reflexivity|].
    constructor; [discriminate|].
    destruct (truthy slack_webhook); repeat constructor; discriminate. }
  split.
  { intros max_workers sites world st Hreach.
    apply (pool_inv_reachable isoformat max_workers thresholds slack_webhook
             sites world st Hreach). }
  intros sites world1 world2 i Heq. unfold future_result. rewrite Heq. reflexivity.
Qed.

(** ** The notifier's outcome *)

Lemma check_site_ignores_slack
    (isoformat : Z -> string) (w1 w2 : Oracle) (entry : gmap string pyval)
    (thresholds : gmap string Z) (slack_webhook : option string) :
  cert w1 = cert w2 -> clock w1 = clock w2 ->
  outcome (check_site isoformat w1 entry thresholds slack_webhook)
  = outcome (check_site isoformat w2 entry thresholds slack_webhook).
Proof.
  intros Hcert Hclock.
  destruct (cert w1) as [e|exp] eqn:Hc1; symmetry in Hcert.
  - rewrite (check_site_failure isoformat w1 entry thresholds slack_webhook e Hc1).
    rewrite (check_site_failure isoformat w2 entry thresholds slack_webhook e Hcert).
    reflexivity.
  - rewrite (check_site_success isoformat w1 entry thresholds slack_webhook exp Hc1).
    rewrite (check_site_success isoformat w2 entry thresholds slack_webhook exp Hcert).
    unfold days_until. rewrite Hclock. reflexivity.
Qed.

Lemma exit_code_same_members (rs1 rs2 : list CheckResult) :
  (forall r, r ∈ rs1 <-> r ∈ rs2) -> exit_code rs1 = exit_code rs2.
Proof.
  intros Hmem.
  assert (Hcodes : forall s,
            bool_decide (s ∈ (list_to_set ((fun r : CheckResult => r.1.2) <$> rs1)
                               : gset string))
            = bool_decide (s ∈ (list_to_set ((fun r : CheckResult => r.1.2) <$> rs2)
                                 : gset string))).
  { intros s. apply bool_decide_ext. rewrite !codes_spec, !Exists_exists.
    split; intros (r & Hin & Hs); exists r; (split; [apply Hmem, Hin|exact Hs]). }
  unfold exit_code. cbv zeta. rewrite !Hcodes. reflexivity.
Qed.

(** C8: two runs in which the outside answers alike except for the
    outcome of the webhook calls: every check returns the same triple in
    both, the two result lists have the same members, and the exit code is
    the same. *)
Theorem notifier_outcome_is_swallowed
    (isoformat : Z -> string) (max_workers : nat) (thresholds : gmap string Z)
    (slack_webhook : option string) (sites : list (gmap string pyval))
    (world1 world2 : nat -> Oracle) (st1 st2 : pool_state) :
  (forall i, cert (world1 i) = cert (world2 i) /\ clock (world1 i) = clock (world2 i)) ->
  pool_run isoformat max_workers thresholds slack_webhook sites world1 st1 ->
  pool_run isoformat max_workers thresholds slack_webhook sites world2 st2 ->
  (forall i entry,
     outcome (check_site isoformat (world1 i) entry thresholds slack_webhook)
     = outcome (check_site isoformat (world2 i) entry thresholds slack_webhook))
  /\ (forall r, r ∈ results st1 <-> r ∈ results st2)
  /\ exit_code (results st1) = exit_code (results st2).
Proof.
  intros Hsame Hrun1 Hrun2.
  assert (Hcheck : forall i entry,
            outcome (check_site isoformat (world1 i) entry thresholds slack_webhook)
            = outcome (check_site isoformat (world2 i) entry thresholds slack_webhook)).
  { intros i entry. destruct (Hsame i) as [Hcert Hclock].
    apply check_site_ignores_slack; assumption. }
  assert (Hfut : forall i,
            future_result isoformat thresholds slack_webhook sites world1 i
            = future_result isoformat thresholds slack_webhook sites world2 i).
  { intros i. unfold future_result.
    destruct (sites !! i) as [site|]; cbn; [|reflexivity].
    rewrite Hcheck. reflexivity. }
  assert (Hmem : forall r, r ∈ results st1 <-> r ∈ results st2).
  { intros r.
    rewrite (pool_run_results _ _ _ _ _ _ st1 r Hrun1).
    rewrite (pool_run_results _ _ _ _ _ _ st2 r Hrun2).
    split; intros (i & Hi & Hr); exists i; (split; [exact Hi|]); congruence. }
  split; [exact Hcheck|]. split; [exact Hmem|].
  apply exit_code_same_members, Hmem.
Qed.

(** C8 at a concrete input: three sites, once with a webhook that fails
    and the sites collected out of order, once with one that works. *)
Lemma notifier_outcome_is_swallowed_witness :
  pool_run iso_raw 2 ∅ hook sites_example world_example st_interleaved
  /\ pool_run iso_raw 2 ∅ hook sites_example world_example_ok st_sequential
  /\ exit_code (results st_interleaved) = exit_code (results st_sequential).
Proof.
  split; [exact interleaved_run|]. split; [exact sequential_run|].
  destruct (notifier_outcome_is_swallowed iso_raw 2 ∅ hook sites_example
              world_example world_example_ok st_interleaved st_sequential)
    as (_ & _ & Hexit).
  - intros i. split; reflexivity.
  - exact interleaved_run.
  - exact sequential_run.
  - exact Hexit.
Defined.

(** * Further properties of the code *)

(** ** The exit code as a reduction *)

Lemma exit_code_cases (rs : list CheckResult) :
  (Exists (fun r => status_of r = "ERROR" \/ status_of r = "EXPIRED") rs
   /\ exit_code rs = 2)
  \/ (~ Exists (fun r => status_of r = "ERROR" \/ status_of r = "EXPIRED") rs
      /\ Exists (fun r => status_of r = "WARNING") rs /\ exit_code rs = 1)
  \/ (~ Exists (fun r => status_of r = "ERROR" \/ status_of r = "EXPIRED") rs
      /\ ~ Exists (fun r => status_of r = "WARNING") rs /\ exit_code rs = 0).
Proof.
  unfold exit_code. cbv zeta.
  destruct (bool_decide ("ERROR" ∈ _)) eqn:Herr.
  { left. split; [|reflexivity].
    apply bool_decide_eq_true, codes_spec in Herr.
    eapply Exists_impl; [exact Herr|]. cbn. auto. }
  destruct (bool_decide ("EXPIRED" ∈ _)) eqn:Hexp.
  { left. split; [|reflexivity].
    apply bool_decide_eq_true, codes_spec in Hexp.
    eapply Exists_impl; [exact Hexp|]. cbn. auto. }
  apply bool_decide_eq_false in Herr, Hexp. rewrite codes_spec in Herr, Hexp.
  assert (Hno : ~ Exists (fun r => status_of r = "ERROR" \/ status_of r = "EXPIRED") rs).
  { intros Hex. apply Exists_exists in Hex as (r & Hin & [Hs|Hs]).
    - apply Herr, Exists_exists. eauto.
    - apply Hexp, Exists_exists. eauto. }
  cbn [orb].
  destruct (bool_decide ("WARNING" ∈ _)) eqn:Hwarn.
  - right; left. apply bool_decide_eq_true, codes_spec in Hwarn. auto.
  - right; right. apply bool_decide_eq_false in Hwarn. rewrite codes_spec in Hwarn.
    auto.
Qed.

(** X1: the exit code is a maximum: that of two result lists put together
    is the larger of their two codes, so it lies between 0 and 2, a list
    with a single result has that result's severity, and the order in which
    the results were collected does not matter. *)
Theorem exit_code_is_a_maximum (rs1 rs2 : list CheckResult) :
  exit_code (rs1 ++ rs2) = Z.max (exit_code rs1) (exit_code rs2)
  /\ 0 <= exit_code rs1 <= 2
  /\ (forall r, exit_code (r :: rs1) = Z.max (severity (status_of r)) (exit_code rs1))
  /\ (rs1 ≡ₚ rs2 -> exit_code rs1 = exit_code rs2).
Proof.
  assert (Happ : forall a b : list CheckResult,
            exit_code (a ++ b) = Z.max (exit_code a) (exit_code b)).
  { intros a b.
    destruct (exit_code_cases (a ++ b)) as [[Hb ->]|[(Hb & Hw & ->)|(Hb & Hw & ->)]];
    destruct (exit_code_cases a) as [[Hb1 ->]|[(Hb1 & Hw1 & ->)|(Hb1 & Hw1 & ->)]];
    destruct (exit_code_cases b) as [[Hb2 ->]|[(Hb2 & Hw2 & ->)|(Hb2 & Hw2 & ->)]];
    rewrite ?Exists_app in *; try reflexivity; exfalso; tauto. }
  split; [apply Happ|].
  split.
  { destruct (exit_code_cases rs1) as [[_ ->]|[(_ & _ & ->)|(_ & _ & ->)]]; lia. }
  split.
  { intros [[l s] d]. change ((l, s, d) :: rs1) with ([(l, s, d)] ++ rs1).
    rewrite Happ. reflexivity. }
  intros Hperm. apply exit_code_same_members. intros r. rewrite Hperm. reflexivity.
Qed.

(** ** The day count over time *)

Lemma days_until_div (w : Oracle) (dt : Z) :
  days_until w dt = (dt - clock w) / datetime.US_PER_DAY.
Proof. reflexivity. Qed.

Lemma days_until_monotone (w1 w2 : Oracle) (dt1 dt2 : Z) :
  dt1 - clock w1 <= dt2 - clock w2 -> days_until w1 dt1 <= days_until w2 dt2.
Proof.
  intros Hle. rewrite !days_until_div.
  apply Z.div_le_mono; [reflexivity|exact Hle].
Qed.

(** X2: the day count moves with the calendar: an expiry [k] whole days
    later counts [k] more, a clock [k] whole days later counts [k] fewer,
    a later expiry never counts fewer days and a later clock never counts
    more. *)
Theorem days_until_shifts_by_whole_days
    (c : string + Z) (s : option string) (now dt k : Z) :
  days_until (mk_oracle c now s) (dt + k * datetime.US_PER_DAY)
    = days_until (mk_oracle c now s) dt + k
  /\ days_until (mk_oracle c (now + k * datetime.US_PER_DAY) s) dt
     = days_until (mk_oracle c now s) dt - k
  /\ (forall dt', dt <= dt' ->
        days_until (mk_oracle c now s) dt <= days_until (mk_oracle c now s) dt')
  /\ (forall now', now <= now' ->
        days_until (mk_oracle c now' s) dt <= days_until (mk_oracle c now s) dt).
Proof.
  assert (Hday : datetime.US_PER_DAY <> 0) by discriminate.
  split.
  { rewrite !days_until_div. cbn [clock].
    replace (dt + k * datetime.US_PER_DAY - now)
      with (dt - now + k * datetime.US_PER_DAY) by lia.
    apply Z.div_add. exact Hday. }
  split.
  { rewrite !days_until_div. cbn [clock].
    replace (dt - (now + k * datetime.US_PER_DAY))
      with (dt - now + (- k) * datetime.US_PER_DAY) by lia.
    rewrite Z.div_add by exact Hday. lia. }
  split.
  - intros dt' Hle. apply days_until_monotone. cbn [clock]. lia.
  - intros now' Hle. apply days_until_monotone. cbn [clock]. lia.
Qed.

(** ** Thresholds given the wrong way round *)

(** X3: when [warning_days] is not above [error_days], no successful check
    is ever reported as WARNING: the ERROR test comes first and takes every
    day count the WARNING test would. *)
Theorem no_warning_when_thresholds_inverted
    (isoformat : Z -> string) (w : Oracle) (entry : gmap string pyval)
    (thresholds : gmap string Z) (slack_webhook : option string) (exp : Z) :
  warning_days thresholds <= error_days thresholds ->
  cert w = inr exp ->
  exists r,
    outcome (check_site isoformat w entry thresholds slack_webhook) = inr r
    /\ status_of r <> "WARNING"
    /\ (status_of r = "OK" <->
        0 <= days_of r /\ error_days thresholds < days_of r).
Proof.
  intros Hinv Hc.
  rewrite (check_site_success isoformat w entry thresholds slack_webhook exp Hc).
  eexists. split; [reflexivity|].
  unfold status_of, days_of; cbn [fst snd].
  destruct (classify_cases thresholds (days_until w exp))
    as [[Ha ->]|[[Ha ->]|[(Ha & Ha' & ->)|(Ha & Ha' & Ha'' & ->)]]].
  - split; [discriminate|]. split; [discriminate|lia].
  - split; [discriminate|]. split; [discriminate|lia].
  - lia.
  - split; [discriminate|]. split; [lia|reflexivity].
Qed.

(** X3 at a concrete input: twenty days left, [error_days] 30 and
    [warning_days] 7. *)
Lemma no_warning_when_thresholds_inverted_witness :
  exists r,
    outcome (check_site iso_raw (mk_oracle (inr (in_days 20)) new_year_2025 None)
               site_example thresholds_inverted None) = inr r
    /\ status_of r <> "WARNING".
Proof.
  destruct (no_warning_when_thresholds_inverted iso_raw
              (mk_oracle (inr (in_days 20)) new_year_2025 None)
              site_example thresholds_inverted None (in_days 20))
    as (r & Ho & Hnw & _).
  - vm_compute. discriminate.
  - reflexivity.
  - exists r. split; assumption.
Defined.

(** ** Severity over time *)

Lemma classify_severity_antitone (thresholds : gmap string Z) (d1 d2 : Z) :
  d1 <= d2 ->
  severity (classify thresholds d2) <= severity (classify thresholds d1).
Proof.
  intros Hle.
  destruct severity_values as (Sok & Swarn & Serr & Sexp).
  destruct (classify_cases thresholds d1)
    as [[Ha ->]|[[Ha ->]|[(Ha & Ha' & ->)|(Ha & Ha' & Ha'' & ->)]]];
  destruct (classify_cases thresholds d2)
    as [[Hb ->]|[[Hb ->]|[(Hb & Hb' & ->)|(Hb & Hb' & Hb'' & ->)]]];
  rewrite ?Sok, ?Swarn, ?Serr, ?Sexp; lia.
Qed.

(** X4: for one certificate and any thresholds, consistent or not, a check
    made later is never less severe than one made earlier; and once the
    retrieval fails the check is as severe as any can be. *)
Theorem severity_never_drops_over_time
    (isoformat : Z -> string) (w1 w2 : Oracle) (entry : gmap string pyval)
    (thresholds : gmap string Z) (slack_webhook : option string) (exp : Z) :
  cert w1 = inr exp -> clock w1 <= clock w2 ->
  (cert w2 = inr exp \/ exists e, cert w2 = inl e) ->
  exists r1 r2,
    outcome (check_site isoformat w1 entry thresholds slack_webhook) = inr r1
    /\ outcome (check_site isoformat w2 entry thresholds slack_webhook) = inr r2
    /\ severity (status_of r1) <= severity (status_of r2)
    /\ exit_code [r1] <= exit_code [r2].
Proof.
  intros Hc1 Hclock Hc2.
  rewrite (check_site_success isoformat w1 entry thresholds slack_webhook exp Hc1).
  assert (Hmax : forall s, severity s <= 2).
  { intros s. unfold severity.
    destruct (exit_code_cases [(PNone, s, 0)])
      as [[_ ->]|[(_ & _ & ->)|(_ & _ & ->)]]; lia. }
  assert (Hone : forall r : CheckResult, exit_code [r] = severity (status_of r)).
  { intros [[l s] d]. reflexivity. }
  destruct Hc2 as [Hc2|[e Hc2]].
  - rewrite (check_site_success isoformat w2 entry thresholds slack_webhook exp Hc2).
    do 2 eexists. do 2 (split; [reflexivity|]).
    rewrite !Hone. unfold status_of; cbn [fst snd].
    assert (Hs : severity (classify thresholds (days_until w1 exp))
                 <= severity (classify thresholds (days_until w2 exp))).
    { apply classify_severity_antitone, days_until_monotone. lia. }
    split; exact Hs.
  - rewrite (check_site_failure isoformat w2 entry thresholds slack_webhook e Hc2).
    do 2 eexists. do 2 (split; [reflexivity|]).
    rewrite !Hone. unfold status_of; cbn [fst snd].
    destruct severity_values as (_ & _ & -> & _).
    split; apply Hmax.
Qed.

(** X4 at a concrete input: the same certificate seen on 2025-01-01 with
    twenty days left and ten days later. *)
Lemma severity_never_drops_over_time_witness :
  exists r1 r2,
    outcome (check_site iso_raw (mk_oracle (inr (in_days 20)) (in_days 0) None)
               site_example ∅ None) = inr r1
    /\ outcome (check_site iso_raw (mk_oracle (inr (in_days 20)) (in_days 10) None)
                  site_example ∅ None) = inr r2
    /\ severity (status_of r1) <= severity (status_of r2).
Proof.
  destruct (severity_never_drops_over_time iso_raw
              (mk_oracle (inr (in_days 20)) (in_days 0) None)
              (mk_oracle (inr (in_days 20)) (in_days 10) None)
              site_example ∅ None (in_days 20))
    as (r1 & r2 & Ho1 & Ho2 & Hs & _).
  - reflexivity.
  - vm_compute. discriminate.
  - left. reflexivity.
  - exists r1, r2. auto.
Defined.

(** ** What a check prints and posts *)

(** X5: a failed retrieval with a webhook set posts the error line exactly
    once, and a post that fails leaves no trace: the output is the error
    line and the post, whatever the webhook answers. *)
Theorem failure_is_notified_once_and_quietly
    (isoformat : Z -> string) (w : Oracle) (entry : gmap string pyval)
    (thresholds : gmap string Z) (slack_webhook : option string) (e : string) :
  truthy slack_webhook = true -> cert w = inl e ->
  output (check_site isoformat w entry thresholds slack_webhook)
    = [Stderr (error_line (entry_label entry) (entry_host entry) (entry_port entry) e);
       HttpPost (default "" slack_webhook)
         {[ "text" := error_line (entry_label entry) (entry_host entry)
                        (entry_port entry) e ]}]
  /\ length (notifications
               (output (check_site isoformat w entry thresholds slack_webhook))) = 1%nat
  /\ output (check_site isoformat w entry thresholds slack_webhook)
     = output (check_site isoformat (with_slack None w) entry thresholds slack_webhook).
Proof.
  intros Ht Hc.
  rewrite (check_site_failure isoformat w entry thresholds slack_webhook e Hc).
  rewrite (check_site_failure isoformat (with_slack None w) entry thresholds
             slack_webhook e Hc).
  rewrite Ht. unfold output; cbn [fst].
  split; [reflexivity|]. split; reflexivity.
Qed.

(** X5 at a concrete input: a host that times out and a webhook that
    answers with an error. *)
Lemma failure_is_notified_once_and_quietly_witness :
  length (output (check_site iso_raw
                    (mk_oracle (inl "timed out") new_year_2025 (Some "HTTP Error 500"))
                    site_down ∅ hook)) = 2%nat.
Proof.
  destruct (failure_is_notified_once_and_quietly iso_raw
              (mk_oracle (inl "timed out") new_year_2025 (Some "HTTP Error 500"))
              site_down ∅ hook "timed out" eq_refl eq_refl)
    as (Hout & _ & _).
  rewrite Hout. reflexivity.
Defined.

Lemma check_site_silent_webhook
    (isoformat : Z -> string) (w : Oracle) (entry : gmap string pyval)
    (thresholds : gmap string Z) (slack_webhook : option string) :
  truthy slack_webhook = false ->
  notifications (output (check_site isoformat w entry thresholds slack_webhook)) = [].
Proof.
  intros Ht. destruct (cert w) as [e|exp] eqn:Hc.
  - rewrite (check_site_failure isoformat w entry thresholds slack_webhook e Hc).
    rewrite Ht. reflexivity.
  - rewrite (check_site_success isoformat w entry thresholds slack_webhook exp Hc).
    unfold output, alert_events; cbn [fst]. rewrite Ht. reflexivity.
Qed.

(** X6: without a usable webhook no check ever posts, whatever its status
    and whether or not the retrieval succeeds: under [--no-slack], with
    [SLACK_WEBHOOK_URL] unset, and with it set to the empty string. *)
Theorem no_webhook_no_post
    (isoformat : Z -> string) (w : Oracle) (entry : gmap string pyval)
    (thresholds : gmap string Z) (env_url : option string) :
  notifications
    (output (check_site isoformat w entry thresholds (main_webhook env_url true))) = []
  /\ notifications
       (output (check_site isoformat w entry thresholds (main_webhook None false))) = []
  /\ notifications
       (output (check_site isoformat w entry thresholds (main_webhook (Some "") false)))
     = [].
Proof.
  split; [|split]; apply check_site_silent_webhook; reflexivity.
Qed.

(** X7: every check prints exactly one report line: on standard output
    after a successful retrieval, on the error stream after a failed one.
    The only other line is the notice of a failed post, and it appears
    exactly when the retrieval succeeded, a webhook is set, the status is
    WARNING, ERROR or EXPIRED, and the post raised. *)
Theorem one_report_line_per_check
    (isoformat : Z -> string) (w : Oracle) (entry : gmap string pyval)
    (thresholds : gmap string Z) (slack_webhook : option string) :
  match cert w with
  | inr exp =>
      stdout_lines (output (check_site isoformat w entry thresholds slack_webhook))
        = [Stdout (status_line isoformat (entry_label entry) (entry_host entry)
                     (entry_port entry) exp (days_until w exp)
                     (classify thresholds (days_until w exp)))]
      /\ stderr_lines (output (check_site isoformat w entry thresholds slack_webhook))
         = match slack w with
           | Some e =>
               if truthy slack_webhook
                  && bool_decide (classify thresholds (days_until w exp) ∈ ALERTING)
               then [Stderr ("Failed to send Slack alert: " +:+ e)]
               else []
           | None => []
           end
  | inl e =>
      stdout_lines (output (check_site isoformat w entry thresholds slack_webhook)) = []
      /\ stderr_lines (output (check_site isoformat w entry thresholds slack_webhook))
         = [Stderr (error_line (entry_label entry) (entry_host entry)
                      (entry_port entry) e)]
  end.
Proof.
  destruct (cert w) as [e|exp] eqn:Hc.
  - rewrite (check_site_failure isoformat w entry thresholds slack_webhook e Hc).
    unfold output; cbn [fst].
    destruct (truthy slack_webhook); split; reflexivity.
  - rewrite (check_site_success isoformat w entry thresholds slack_webhook exp Hc).
    unfold output, alert_events, ALERTING; cbn [fst].
    destruct (truthy slack_webhook && _), (slack w); split; reflexivity.
Qed.

(** X8: the label a check reports, on both paths, is the entry's [name],
    or its [host] when it has no name, or [None] when it has neither; and
    an entry that gives only a host is reported with the port 443. *)
Theorem label_falls_back_to_host
    (isoformat : Z -> string) (w : Oracle) (entry : gmap string pyval)
    (thresholds : gmap string Z) (slack_webhook : option string) :
  (exists r,
     outcome (check_site isoformat w entry thresholds slack_webhook) = inr r
     /\ label_of r =
        match entry !! "name", entry !! "host" with
        | Some name, _ => name
        | None, Some host => host
        | None, None => PNone
        end)
  /\ (forall (h e : string),
        cert w = inl e ->
        head (output (check_site isoformat w {[ "host" := PStr h ]}
                        thresholds slack_webhook))
        = Some (Stderr (h +:+ " (" +:+ h
                          +:+ ":443) -> ERROR retrieving certificate: " +:+ e))).
Proof.
  split.
  - assert (Hl : entry_label entry =
                 match entry !! "name", entry !! "host" with
                 | Some name, _ => name
                 | None, Some host => host
                 | None, None => PNone
                 end).
    { unfold entry_label, entry_host, dict_get.
      destruct (entry !! "name"), (entry !! "host"); reflexivity. }
    destruct (cert w) as [e|exp] eqn:Hc.
    + rewrite (check_site_failure isoformat w entry thresholds slack_webhook e Hc).
      eexists. split; [reflexivity|exact Hl].
    + rewrite (check_site_success isoformat w entry thresholds slack_webhook exp Hc).
      eexists. split; [reflexivity|exact Hl].
  - intros h e Hc.
    rewrite (check_site_failure isoformat w _ thresholds slack_webhook e Hc).
    reflexivity.
Qed.

(** ** Runs of the pool compared *)

Section run_facts.

Variable isoformat : Z -> string.
Variable thresholds : gmap string Z.
Variable slack_webhook : option string.
Variable sites : list (gmap string pyval).
Variable world : nat -> Oracle.

Local Abbreviation value := (future_value isoformat thresholds slack_webhook sites world).
Local Abbreviation future' := (future_result isoformat thresholds slack_webhook sites world).

Lemma results_are_future_values (yld : list nat) (res : list CheckResult) :
  Forall2 (fun i r => future' i = Some (inr r)) yld res ->
  res = omap value yld.
Proof.
  intros Hres. induction Hres as [|i r yld res Hi _ IH]; [reflexivity|].
  cbn. unfold future_value at 1. rewrite Hi. cbn. f_equal. exact IH.
Qed.

(** Whatever the worker bound, the results at the barrier are the values
    of the futures, in some order. *)
Lemma pool_run_results_permutation (max_workers : nat) (st : pool_state) :
  pool_run isoformat max_workers thresholds slack_webhook sites world st ->
  results st ≡ₚ omap value (seq 0 (length sites)).
Proof.
  intros Hrun.
  destruct (pool_run_yields_all _ _ _ _ _ _ st Hrun) as [Hperm Hres].
  rewrite (results_are_future_values _ _ Hres), Hperm. reflexivity.
Qed.

(** What the future of a submitted site holds, by the outcome of its retrieval. *)
Lemma future_of_site (i : nat) (site : gmap string pyval) :
  sites !! i = Some site ->
  exists r,
    future' i = Some (inr r)
    /\ match cert (world i) with
       | inl _ => status_of r = "ERROR"
       | inr exp =>
           status_of r = classify thresholds (days_until (world i) exp)
       end.
Proof.
  intros Hs. unfold future_result. rewrite Hs. cbn.
  destruct (cert (world i)) as [e|exp] eqn:Hc.
  - rewrite (check_site_failure isoformat (world i) site thresholds slack_webhook e Hc).
    eexists. split; reflexivity.
  - rewrite (check_site_success isoformat (world i) site thresholds slack_webhook exp Hc).
    eexists. split; reflexivity.
Qed.

End run_facts.

(** X9: two complete runs over the same sites and the same answers of the
    outside, under any schedules and any two worker bounds, collect the
    same results up to order and compute the same exit code. *)
Theorem runs_agree_up_to_order
    (isoformat : Z -> string) (k1 k2 : nat) (thresholds : gmap string Z)
    (slack_webhook : option string) (sites : list (gmap string pyval))
    (world : nat -> Oracle) (st1 st2 : pool_state) :
  pool_run isoformat k1 thresholds slack_webhook sites world st1 ->
  pool_run isoformat k2 thresholds slack_webhook sites world st2 ->
  results st1 ≡ₚ results st2
  /\ exit_code (results st1) = exit_code (results st2).
Proof.
  intros Hrun1 Hrun2.
  assert (Hperm : results st1 ≡ₚ results st2).
  { rewrite (pool_run_results_permutation _ _ _ _ _ k1 st1 Hrun1).
    rewrite (pool_run_results_permutation _ _ _ _ _ k2 st2 Hrun2).
    reflexivity. }
  split; [exact Hperm|].
  apply exit_code_same_members. intros r. rewrite Hperm. reflexivity.
Qed.

(** Three sites on two workers, one task at a time and a failing webhook. *)
Lemma sequential_run_failing_webhook :
  pool_run iso_raw 2 ∅ hook sites_example world_example st_sequential.
Proof.
  assert (H0 : future_result iso_raw ∅ hook sites_example world_example 0
               = Some (inr result_0)) by (vm_compute; reflexivity).
  assert (H1 : future_result iso_raw ∅ hook sites_example world_example 1
               = Some (inr result_1)) by (vm_compute; reflexivity).
  assert (H2 : future_result iso_raw ∅ hook sites_example world_example 2
               = Some (inr result_2)) by (vm_compute; reflexivity).
  split; [|repeat split].
  unfold submitted, st_sequential. cbn [length sites_example seq].
  eapply rtc_l; [apply step_start; cbn; lia|]. cbn [app].
  eapply rtc_l; [apply (step_finish _ _ _ _ _ _ 0%nat [1; 2]%nat [] [] [] [] [])|].
  cbn [app].
  eapply rtc_l;
    [apply (step_collect _ _ _ _ _ _ 0%nat result_0 [1; 2]%nat [] [] [] [] [] H0)|].
  cbn [app].
  eapply rtc_l; [apply step_start; cbn; lia|]. cbn [app].
  eapply rtc_l;
    [apply (step_finish _ _ _ _ _ _ 1%nat [2%nat] [] [] [] [0%nat] [result_0])|].
  cbn [app].
  eapply rtc_l;
    [apply (step_collect _ _ _ _ _ _ 1%nat result_1 [2%nat] [] [] [] [0%nat]
              [result_0] H1)|].
  cbn [app].
  eapply rtc_l; [apply step_start; cbn; lia|]. cbn [app].
  eapply rtc_l;
    [apply (step_finish _ _ _ _ _ _ 2%nat [] [] [] [] [0; 1]%nat
              [result_0; result_1])|].
  cbn [app].
  eapply rtc_l;
    [apply (step_collect _ _ _ _ _ _ 2%nat result_2 [] [] [] [] [0; 1]%nat
              [result_0; result_1] H2)|].
  cbn [app]. apply rtc_refl.
Qed.

(** X9 at a concrete input: the out-of-order run against the sequential one. *)
Lemma runs_agree_up_to_order_witness :
  results st_interleaved ≡ₚ results st_sequential
  /\ exit_code (results st_interleaved) = exit_code (results st_sequential).
Proof.
  exact (runs_agree_up_to_order iso_raw 2 2 ∅ hook sites_example world_example
           st_interleaved st_sequential interleaved_run sequential_run_failing_webhook).
Defined.

(** X10: the exit code of a complete run is decided by what the outside
    answers, not by the schedule. It is 2 exactly when some site's
    retrieval fails or its day count is negative or at most [error_days];
    it is 0 exactly when every site's retrieval succeeds with a day count
    that is not negative and above both thresholds; otherwise it is 1. *)
Theorem exit_code_decided_by_the_world
    (isoformat : Z -> string) (max_workers : nat) (thresholds : gmap string Z)
    (slack_webhook : option string) (sites : list (gmap string pyval))
    (world : nat -> Oracle) (st : pool_state) :
  pool_run isoformat max_workers thresholds slack_webhook sites world st ->
  (exit_code (results st) = 2 <->
   exists i site,
     sites !! i = Some site
     /\ ((exists e, cert (world i) = inl e)
         \/ exists exp,
              cert (world i) = inr exp
              /\ (days_until (world i) exp < 0
                  \/ days_until (world i) exp <= error_days thresholds)))
  /\ (exit_code (results st) = 0 <->
      forall i site,
        sites !! i = Some site ->
        exists exp,
          cert (world i) = inr exp
          /\ 0 <= days_until (world i) exp
          /\ error_days thresholds < days_until (world i) exp
          /\ warning_days thresholds < days_until (world i) exp)
  /\ (exit_code (results st) = 0 \/ exit_code (results st) = 1
      \/ exit_code (results st) = 2).
Proof.
  intros Hrun.
  pose proof (pool_run_results isoformat max_workers thresholds slack_webhook
                sites world st) as Hmem.
  assert (Hin : forall i site,
            sites !! i = Some site ->
            exists r,
              r ∈ results st
              /\ match cert (world i) with
                 | inl _ => status_of r = "ERROR"
                 | inr exp =>
                     status_of r = classify thresholds (days_until (world i) exp)
                 end).
  { intros i site Hs.
    destruct (future_of_site isoformat thresholds slack_webhook sites world i site Hs)
      as (r & Hfut & Hst).
    exists r. split; [|exact Hst].
    apply (Hmem r Hrun). exists i. split; [|exact Hfut].
    apply lookup_lt_is_Some_1. eauto. }
  assert (Hout : forall r,
            r ∈ results st ->
            exists i site,
              sites !! i = Some site
              /\ match cert (world i) with
                 | inl _ => status_of r = "ERROR"
                 | inr exp =>
                     status_of r = classify thresholds (days_until (world i) exp)
                 end).
  { intros r Hr. apply (Hmem r Hrun) in Hr as (i & Hi & Hfut).
    destruct (lookup_lt_is_Some_2 sites i Hi) as [site Hs].
    destruct (future_of_site isoformat thresholds slack_webhook sites world i site Hs)
      as (r' & Hfut' & Hst).
    rewrite Hfut in Hfut'. injection Hfut' as <-.
    exists i, site. split; assumption. }
  split; [|split].
  - split.
    + intros Hcode.
      destruct (exit_code_cases (results st))
        as [[Hbad _]|[(_ & _ & H1)|(_ & _ & H0)]]; [|lia..].
      apply Exists_exists in Hbad as (r & Hr & Hs).
      destruct (Hout r Hr) as (i & site & Hsite & Hst).
      exists i, site. split; [exact Hsite|].
      destruct (cert (world i)) as [e|exp]; [left; eauto|].
      right. exists exp. split; [reflexivity|].
      rewrite Hst in Hs.
      destruct (classify_cases thresholds (days_until (world i) exp))
        as [[Ha He]|[[Ha He]|[(Ha & Ha' & He)|(Ha & Ha' & Ha'' & He)]]];
        rewrite He in Hs; destruct Hs as [Hs|Hs]; try discriminate Hs; lia.
    + intros (i & site & Hsite & Hwhy).
      destruct (Hin i site Hsite) as (r & Hr & Hst).
      assert (Hbad : status_of r = "ERROR" \/ status_of r = "EXPIRED").
      { destruct Hwhy as [[e He]|(exp & He & Hd)]; rewrite He in Hst.
        - left. exact Hst.
        - rewrite Hst.
          destruct (Z.lt_ge_cases (days_until (world i) exp) 0) as [Hn|Hn].
          + right. apply classify_expired. exact Hn.
          + left. apply classify_error. lia. }
      destruct (exit_code_cases (results st))
        as [[_ H2]|[(Hno & _)|(Hno & _)]]; [exact H2| |];
        exfalso; apply Hno, Exists_exists; eauto.
  - split.
    + intros Hcode i site Hsite.
      destruct (exit_code_cases (results st))
        as [[_ H2]|[(_ & _ & H1)|(Hno & Hnw & _)]]; [lia..|].
      destruct (Hin i site Hsite) as (r & Hr & Hst).
      destruct (cert (world i)) as [e|exp].
      { exfalso. apply Hno, Exists_exists. eauto. }
      exists exp. split; [reflexivity|].
      destruct (classify_cases thresholds (days_until (world i) exp))
        as [[Ha He]|[[Ha He]|[(Ha & Ha' & He)|(Ha & Ha' & Ha'' & He)]]];
        rewrite He in Hst.
      * exfalso. apply Hno, Exists_exists. eauto.
      * exfalso. apply Hno, Exists_exists. eauto.
      * exfalso. apply Hnw, Exists_exists. eauto.
      * auto.
    + intros Hall.
      assert (Hok : forall r, r ∈ results st -> status_of r = "OK").
      { intros r Hr. destruct (Hout r Hr) as (i & site & Hsite & Hst).
        destruct (Hall i site Hsite) as (exp & He & H0 & H1 & H2).
        rewrite He in Hst. rewrite Hst. apply classify_ok; assumption. }
      destruct (exit_code_cases (results st))
        as [[Hbad _]|[(_ & Hw & _)|(_ & _ & H0)]]; [| |exact H0]; exfalso.
      * apply Exists_exists in Hbad as (r & Hr & Hs).
        rewrite (Hok r Hr) in Hs. destruct Hs; discriminate.
      * apply Exists_exists in Hw as (r & Hr & Hs).
        rewrite (Hok r Hr) in Hs. discriminate.
  - destruct (exit_code_cases (results st))
      as [[_ ->]|[(_ & _ & ->)|(_ & _ & ->)]]; auto.
Qed.

(** X10 at a concrete input: the third site times out, so the code is 2. *)
Lemma exit_code_decided_by_the_world_witness :
  exit_code (results st_interleaved) = 2.
Proof.
  destruct (exit_code_decided_by_the_world iso_raw 2 ∅ hook sites_example
              world_example st_interleaved interleaved_run)
    as ([_ Hto] & _ & _).
  apply Hto. exists 2%nat, site_down. split; [reflexivity|].
  left. exists "timed out". reflexivity.
Defined.

(** ** [main] from the command line to the exit code *)

Lemma pool_step_more_workers
    (isoformat : Z -> string) (k k' : nat) (thresholds : gmap string Z)
    (slack_webhook : option string) (sites : list (gmap string pyval))
    (world : nat -> Oracle) (st st' : pool_state) :
  (k <= k')%nat ->
  pool_step isoformat k thresholds slack_webhook sites world st st' ->
  pool_step isoformat k' thresholds slack_webhook sites world st st'.
Proof.
  intros Hk Hstep. destruct Hstep.
  - apply step_start. lia.
  - apply step_finish.
  - apply step_collect. assumption.
  - apply step_raise. assumption.
Qed.

(** A run on few workers is also a run on more. *)
Lemma pool_run_more_workers
    (isoformat : Z -> string) (k k' : nat) (thresholds : gmap string Z)
    (slack_webhook : option string) (sites : list (gmap string pyval))
    (world : nat -> Oracle) (st : pool_state) :
  (k <= k')%nat ->
  pool_run isoformat k thresholds slack_webhook sites world st ->
  pool_run isoformat k' thresholds slack_webhook sites world st.
Proof.
  intros Hk [Hreach Hbar]. split; [|exact Hbar].
  eapply rtc_subrel; [|exact Hreach].
  intros a b. apply pool_step_more_workers. exact Hk.
Qed.

Lemma check_site_outcome_ignores_webhook
    (isoformat : Z -> string) (w : Oracle) (entry : gmap string pyval)
    (thresholds : gmap string Z) (wh1 wh2 : option string) :
  outcome (check_site isoformat w entry thresholds wh1)
  = outcome (check_site isoformat w entry thresholds wh2).
Proof.
  destruct (cert w) as [e|exp] eqn:Hc.
  - rewrite !(check_site_failure isoformat w entry thresholds _ e Hc). reflexivity.
  - rewrite !(check_site_success isoformat w entry thresholds _ exp Hc). reflexivity.
Qed.


Lemma main_exits_exists
    (isoformat : Z -> string) (args : Args) (fs : string -> option Config)
    (env_url : option string) (world : nat -> Oracle) :
  exists code, main_exits isoformat args fs env_url world code.
Proof.
  destruct (fs (config args)) as [cfg|] eqn:Hfs.
  - destruct (pool_run_exists isoformat MAX_WORKERS (default ∅ (cfg_thresholds cfg))
                (main_webhook env_url (no_slack args)) (default [] (cfg_sites cfg))
                world) as [st Hrun].
    { unfold MAX_WORKERS. lia. }
    eexists. eapply main_checked; [exact Hfs|exact Hrun].
  - exists 2. apply main_no_config. exact Hfs.
Qed.


(** X12: the exit code of [main] depends on the configuration file and on
    what the sites answer, and on nothing else: two executions on the same
    configuration path, whatever [--no-slack] and [SLACK_WEBHOOK_URL] are
    in each and however the pool schedules the checks, end with the same code. *)
Theorem main_exit_code_is_determined
    (isoformat : Z -> string) (path : string) (no_slack1 no_slack2 : bool)
    (fs : string -> option Config) (env1 env2 : option string)
    (world : nat -> Oracle) (code1 code2 : Z) :
  main_exits isoformat (mk_args path no_slack1) fs env1 world code1 ->
  main_exits isoformat (mk_args path no_slack2) fs env2 world code2 ->
  code1 = code2.
Proof.
  intros Hexit1 Hexit2.
  destruct Hexit1 as [Hnone1|cfg1 st1 Hcfg1 Hrun1];
    destruct Hexit2 as [Hnone2|cfg2 st2 Hcfg2 Hrun2]; cbn [config no_slack] in *.
  - reflexivity.
  - rewrite Hnone1 in Hcfg2. discriminate Hcfg2.
  - rewrite Hnone2 in Hcfg1. discriminate Hcfg1.
  - rewrite Hcfg1 in Hcfg2. injection Hcfg2 as <-.
    unfold main_run in Hrun1, Hrun2.
    apply exit_code_same_members. intros r.
    rewrite (pool_run_results_permutation _ _ _ _ _ _ st1 Hrun1).
    rewrite (pool_run_results_permutation _ _ _ _ _ _ st2 Hrun2).
    assert (Hval : forall i,
              future_value isoformat (default ∅ (cfg_thresholds cfg1))
                (main_webhook env1 no_slack1) (default [] (cfg_sites cfg1)) world i
              = future_value isoformat (default ∅ (cfg_thresholds cfg1))
                  (main_webhook env2 no_slack2) (default [] (cfg_sites cfg1)) world i).
    { intros i. unfold future_value, future_result.
      destruct (default [] (cfg_sites cfg1) !! i) as [site|]; cbn; [|reflexivity].
      rewrite (check_site_outcome_ignores_webhook isoformat (world i) site _
                 (main_webhook env1 no_slack1) (main_webhook env2 no_slack2)).
      reflexivity. }
    rewrite !list_elem_of_omap.
    split; intros (i & Hi & Hv); exists i; (split; [exact Hi|]); congruence.
Qed.

(** The run of the three example sites, as an execution of [main]. *)
Lemma main_exits_example :
  main_exits iso_raw (mk_args "websites.yml" false) fs_example hook world_example 2.
Proof.
  change 2 with (exit_code (results st_interleaved)).
  apply (main_checked iso_raw (mk_args "websites.yml" false) fs_example hook
           world_example config_example st_interleaved); [reflexivity|].
  unfold main_run. cbn [no_slack main_webhook config_example cfg_thresholds
                          cfg_sites default].
  apply (pool_run_more_workers iso_raw 2 MAX_WORKERS); [unfold MAX_WORKERS; lia|].
  exact interleaved_run.
Qed.

(** X12 at a concrete input: the example sites checked with the webhook on,
    then under [--no-slack] with no webhook in the environment. *)
Lemma main_exit_code_is_determined_witness :
  exists code,
    main_exits iso_raw (mk_args "websites.yml" true) fs_example None world_example code
    /\ code = 2.
Proof.
  destruct (main_exits_exists iso_raw (mk_args "websites.yml" true) fs_example None
              world_example) as [code Hexit].
  exists code. split; [exact Hexit|].
  exact (main_exit_code_is_determined iso_raw "websites.yml" true false fs_example
           None hook world_example code 2 Hexit main_exits_example).
Defined.
